(** * BigAE: a ResNet encoder paired with a BigGAN decoder

    A shallow embedding of [autoencoders/models/bigae.py].

    - Python values that travel through the configuration dict are the
      dynamically typed [value]s below; a Python [dict] with string keys
      is a [gmap string _].
    - A raised exception is the [Raise] branch of [result]; code that
      also touches process-global state runs in the state-and-exception
      monad [M], which keeps the state reached when the exception left.
    - Tensors are a shape with row-major data.  Floating-point numbers
      are idealised as real numbers throughout.
    - Third-party code (torch, torchvision, edflow) and the modules of
      this package that [bigae.py] imports are the fields of the
      classes [Torch], [Package] and [BigAE.Checkpoints]. *)

From Stdlib Require Import Reals Lra Lia ZArith QArith Qround Qminmax Qpower List String Ascii.
From stdpp Require Import gmap strings list.

Local Open Scope Z_scope.
Local Open Scope string_scope.
Local Open Scope list_scope.
Local Open Scope stdpp_scope.

(** ** Python values and exceptions *)

#[local] Set Warnings "-register-all".

Inductive value : Type :=
  | VNone
  | VBool (b : bool)
  | VInt (z : Z)
  | VStr (s : string)
  | VTuple (l : list value)
  | VDict (d : gmap string value).

(** Python truthiness, as used by [if flag:]. *)
Definition truthy (v : value) : bool :=
  match v with
  | VNone => false
  | VBool b => b
  | VInt z => negb (z =? 0)%Z
  | VStr s => negb (String.eqb s "")
  | VTuple l => negb (Nat.eqb (List.length l) 0)
  | VDict d => negb (Nat.eqb (size d) 0)
  end.

Inductive exn : Type :=
  | KeyError (key : value)
  | KeyNotFoundError (key : string)
  | NotImplementedError (arg : string)
  | AssertionError (msg : string)
  | TypeError
  | ValueError
  | IndexError
  | RuntimeError
  | AttributeError (attr : string)
  | OtherError (class : string).

Inductive result (A : Type) : Type :=
  | Ok (a : A)
  | Raise (e : exn).
Arguments Ok {A} a.
Arguments Raise {A} e.

#[global] Instance result_ret : MRet result := fun _ a => Ok a.
#[global] Instance result_bind : MBind result := fun _ _ k r =>
  match r with
  | Ok a => k a
  | Raise e => Raise e
  end.

(** ** edflow's [retrieve], restricted to what this file asks of it

    [retrieve(config, "a/b", default=d)] splits the key at ["/"] and
    walks the nested dicts.  A missing key raises [KeyNotFoundError]
    unless a default other than [None] was given.  A container that is
    not a dict is indexed by [int(segment)]; none of the segments used
    here is numeric, so the walk fails there. *)

Fixpoint split_slash (s : string) : list string :=
  match s with
  | EmptyString => [EmptyString]
  | String c rest =>
      if Ascii.eqb c "/"%char then EmptyString :: split_slash rest
      else match split_slash rest with
           | [] => [String c EmptyString]
           | seg :: segs => String c seg :: segs
           end
  end.

Fixpoint walk (v : value) (path : list string) : option value :=
  match path with
  | [] => Some v
  | k :: path' =>
      match v with
      | VDict d => match d !! k with
                   | Some v' => walk v' path'
                   | None => None
                   end
      | _ => None
      end
  end.

Definition retrieve (config : value) (key : string) (default : option value)
  : result value :=
  match walk config (split_slash key) with
  | Some v => Ok v
  | None => match default with
            | Some d => Ok d
            | None => Raise (KeyNotFoundError key)
            end
  end.

(** Dicts are unhashable, and so are tuples that contain one. *)
Fixpoint hashable (v : value) : bool :=
  match v with
  | VDict _ => false
  | VTuple l => forallb hashable l
  | _ => true
  end.

(** Subscripting a dict whose keys are strings with an arbitrary value:
    unhashable keys are a [TypeError], absent ones a [KeyError]. *)
Definition dict_getitem {A} (d : gmap string A) (k : value) : result A :=
  match k with
  | VStr s => match d !! s with
              | Some a => Ok a
              | None => Raise (KeyError k)
              end
  | _ => if hashable k then Raise (KeyError k) else Raise TypeError
  end.

(** ** Tensors

    A tensor is its shape and its entries in row-major order; entries
    past the end of [data] read as zero. *)

Record tensor : Type := Tensor { shape : list nat; data : list R }.

Definition numel (s : list nat) : nat := fold_right Nat.mul 1%nat s.

Definition at_ (t : tensor) (k : nat) : R := nth k (data t) 0%R.

Definition tabulate (n : nat) (f : nat -> R) : list R := map f (seq 0 n).

Definition Rsum (n : nat) (f : nat -> R) : R :=
  fold_right Rplus 0%R (map f (seq 0 n)).

(** A tensor filled with one value. *)
Definition full (size : list nat) (v : R) : tensor :=
  Tensor size (tabulate (numel size) (fun _ => v)).

(** [x.squeeze(-1)]: the last axis is dropped when its size is one. *)
Definition squeeze_last (x : tensor) : tensor :=
  match rev (shape x) with
  | 1%nat :: lead => Tensor (rev lead) (data x)
  | _ => x
  end.

Definition map_entries (f : R -> R) (x : tensor) : tensor :=
  Tensor (shape x) (map f (data x)).

(** [torch.nn.functional.softmax(x, dim=1)]: entry [(a, j, r)] becomes
    [exp x(a,j,r) / sum_j' exp x(a,j',r)]. *)
Definition softmax_dim1 (x : tensor) : result tensor :=
  match shape x with
  | d0 :: d1 :: rest =>
      let inner := numel rest in
      Ok (Tensor (shape x)
            (tabulate (numel (shape x)) (fun k =>
               let a := (k / (d1 * inner))%nat in
               let r := (k mod inner)%nat in
               (exp (at_ x k) /
                Rsum d1 (fun j => exp (at_ x ((a * d1 + j) * inner + r))))%R)))
  | _ => Raise IndexError
  end.

(** ** ClassUp *)

Record LinearParams : Type :=
  { weight : nat -> nat -> R;   (* weight o i *)
    bias : nat -> R }.

Inductive Layer : Type :=
  | Linear (in_features out_features : nat) (p : LinearParams)
  | LeakyReLU
  | Sigmoid.

(** [nn.Linear]: [y = x W^T + b] over the last axis, which has to have
    [in_features] entries. *)
Definition Linear_forward (in_features out_features : nat) (p : LinearParams)
    (x : tensor) : result tensor :=
  match rev (shape x) with
  | [] => Raise RuntimeError
  | d :: lead =>
      if (d =? in_features)%nat then
        Ok (Tensor (rev lead ++ [out_features])
              (tabulate (numel (rev lead) * out_features) (fun k =>
                 let row := (k / out_features)%nat in
                 let o := (k mod out_features)%nat in
                 (Rsum in_features (fun i =>
                    weight p o i * at_ x (row * in_features + i))
                  + bias p o)%R)))
      else Raise RuntimeError
  end.

Definition leaky_relu (v : R) : R := (Rmax 0 v + 0.01 * Rmin 0 v)%R.
Definition sigmoid (v : R) : R := (1 / (1 + exp (- v)))%R.

Definition Layer_forward (l : Layer) (x : tensor) : result tensor :=
  match l with
  | Linear i o p => Linear_forward i o p x
  | LeakyReLU => Ok (map_entries leaky_relu x)
  | Sigmoid => Ok (map_entries sigmoid x)
  end.

(** [nn.Sequential]. *)
Fixpoint Sequential_forward (layers : list Layer) (x : tensor) : result tensor :=
  match layers with
  | [] => Ok x
  | l :: layers' => x' ← Layer_forward l x; Sequential_forward layers' x'
  end.

(** [dim if out_dim is None else out_dim] *)
Definition out_width (dim : nat) (out_dim : option nat) : nat :=
  match out_dim with
  | None => dim
  | Some o => o
  end.

Module ClassUp.

Record t : Type := { main : list Layer }.

(** [params k] are the parameters of the [k]-th [nn.Linear] created:
    whatever the initialiser or a loaded checkpoint put there. *)
Definition init (params : nat -> LinearParams)
    (dim depth hidden_dim : nat) (use_sigmoid : bool) (out_dim : option nat)
  : t :=
  let layers := [Linear dim hidden_dim (params 0%nat); LeakyReLU] in
  let layers :=
    fold_left (fun layers d =>
                 layers ++ [Linear hidden_dim hidden_dim (params (S d)); LeakyReLU])
              (seq 0 depth) layers in
  let layers :=
    layers ++ [Linear hidden_dim (out_width dim out_dim) (params (S depth))] in
  let layers := if use_sigmoid then layers ++ [Sigmoid] else layers in
  {| main := layers |}.

Definition forward (self : t) (x : tensor) : result tensor :=
  x ← Sequential_forward (main self) (squeeze_last (squeeze_last x));
  softmax_dim1 x.

End ClassUp.

(** ** Process-global state

    [cudnn_benchmark] is [torch.backends.cudnn.benchmark]; [rng_offset]
    counts the samples this file's own [torch.randn] calls have taken
    from torch's default generator (what the collaborators draw for
    themselves is not tracked); [calls] records the collaborators that
    reach outside the process (weight files, checkpoint cache). *)

Inductive norm_layer : Type := InstanceNorm2d | BatchNorm2d | ActNorm.

Inductive resnet_kind : Type := resnet18 | resnet34 | resnet50 | resnet101.

Inductive event : Type :=
  | CallResnet (kind : resnet_kind) (pretrained : value) (norm : norm_layer)
  | CallGenerator (image_size z_dim pretrained use_actnorm : value) (n_class : nat)
  | CallGetCkptPath (name : string)
  | CallTorchLoad (path : string).

Record world : Type :=
  { cudnn_benchmark : bool;
    rng_offset : nat;
    calls : list event }.

Definition M (A : Type) : Type := world -> result A * world.

#[global] Instance M_ret : MRet M := fun _ a w => (Ok a, w).
#[global] Instance M_bind : MBind M := fun _ _ k c w =>
  match c w with
  | (Ok a, w') => k a w'
  | (Raise e, w') => (Raise e, w')
  end.

Definition raiseM {A} (e : exn) : M A := fun w => (Raise e, w).
Definition liftR {A} (r : result A) : M A := fun w => (r, w).
Definition log (ev : event) : M unit := fun w =>
  (Ok tt, {| cudnn_benchmark := cudnn_benchmark w;
             rng_offset := rng_offset w;
             calls := calls w ++ [ev] |}).

(** A configuration value used where torch wants a size. *)
Definition as_dim (v : value) : result nat :=
  match v with
  | VInt z => if (z <? 0)%Z then Raise RuntimeError else Ok (Z.to_nat z)
  | _ => Raise TypeError
  end.

(** A configuration value used in integer arithmetic. *)
Definition as_int (v : value) : result Z :=
  match v with
  | VInt z => Ok z
  | VBool b => Ok (if b then 1 else 0)%Z
  | _ => Raise TypeError
  end.

(** Python's [int(x)] truncates towards zero; [min(a, b)] returns [b]
    only when it is strictly smaller. *)
Definition py_int (q : Q) : Z := Z.quot (Qnum q) (Zpos (Qden q)).
Definition py_min (a b : Q) : Q :=
  match Qcompare b a with
  | Lt => b
  | _ => a
  end.

(** ** DenseEncoderLayer *)

Record Conv2d : Type :=
  { conv_in_channels : Z;
    conv_out_channels : Z;
    conv_kernel_size : Z;
    conv_stride : Z;
    conv_padding : Z;
    conv_bias : bool }.

(** [nn.Conv2d(...)] allocates a weight of shape
    [out_channels, in_channels, kernel_size, kernel_size], which torch
    refuses for a negative extent. *)
Definition Conv2d_init (in_channels out_channels kernel_size stride padding : Z)
    (bias : bool) : result Conv2d :=
  if ((in_channels <? 0) || (out_channels <? 0) || (kernel_size <? 0))%Z
  then Raise RuntimeError
  else Ok {| conv_in_channels := in_channels;
             conv_out_channels := out_channels;
             conv_kernel_size := kernel_size;
             conv_stride := stride;
             conv_padding := padding;
             conv_bias := bias |}.

Module DenseEncoderLayer.

Record t : Type :=
  { scale : Z;
    wm : Q;
    in_channels : Z;
    out_channels : Z;
    kernel_size : Z;
    sub_layers : list Conv2d }.

Definition build (self : t) : result t :=
  conv ← Conv2d_init (in_channels self) (out_channels self) (kernel_size self)
                     1 0 true;
  mret {| scale := scale self; wm := wm self;
          in_channels := in_channels self;
          out_channels := out_channels self;
          kernel_size := kernel_size self;
          sub_layers := [conv] |}.

(** [int(self.wm*64*min(2**(self.scale-1), 16))]. *)
Definition default_in_channels (wm : Q) (scale : Z) : Z :=
  py_int (wm * 64 * py_min (Qpower 2 (scale - 1)) 16)%Q.

Definition init (scale spatial_size out_size : Z) (in_channels : option Z)
    (width_multiplier : Q) : result t :=
  let self_scale := scale in
  let self_wm := width_multiplier in
  let self_in_channels := default_in_channels self_wm self_scale in
  let self_in_channels :=
    match in_channels with
    | Some c => c
    | None => self_in_channels
    end in
  let self_out_channels := out_size in
  let self_kernel_size := spatial_size in
  build {| scale := self_scale; wm := self_wm;
           in_channels := self_in_channels;
           out_channels := self_out_channels;
           kernel_size := self_kernel_size;
           sub_layers := [] |}.

(** [call layer x] is [layer(x)], the convolution applied. *)
Definition forward (call : Conv2d -> tensor -> result tensor) (self : t)
    (input : tensor) : result tensor :=
  let x := input in
  foldl (fun x layer => x ← x; call layer x) (Ok x) (sub_layers self).

End DenseEncoderLayer.

(** ** The objects handed over by the collaborators *)

Inductive Head : Type :=
  | OriginalFc (f : tensor -> result tensor)
  | DenseHead (d : DenseEncoderLayer.t).

(** A torchvision [ResNet], by the attributes this file reaches for. *)
Record ResNet : Type :=
  { conv1 : tensor -> result tensor;
    bn1 : tensor -> result tensor;
    relu : tensor -> result tensor;
    maxpool : tensor -> result tensor;
    layer1 : tensor -> result tensor;
    layer2 : tensor -> result tensor;
    layer3 : tensor -> result tensor;
    layer4 : tensor -> result tensor;
    avgpool : tensor -> result tensor;
    fc : Head }.

Definition set_fc (m : ResNet) (h : Head) : ResNet :=
  {| conv1 := conv1 m; bn1 := bn1 m; relu := relu m; maxpool := maxpool m;
     layer1 := layer1 m; layer2 := layer2 m; layer3 := layer3 m;
     layer4 := layer4 m; avgpool := avgpool m; fc := h |}.

(** The generator returned by [load_variable_latsize_generator]: called
    with [(latent, embedding)]; [colorize_weight_bar] is
    [colorize.module.weight_bar]. *)
Record Generator : Type :=
  { generate : tensor -> tensor -> result tensor;
    colorize_weight_bar : tensor }.

(** torch and torchvision. *)
Class Torch : Type :=
  { torchvision_resnet : resnet_kind -> value -> norm_layer -> result ResNet;
    Conv2d_forward : Conv2d -> tensor -> result tensor;
    linear_parameters : nat -> LinearParams;
    normal_stream : nat -> R }.

(** Modules of this package that [bigae.py] imports. *)
Class Package : Type :=
  { load_variable_latsize_generator :
      value -> value -> value -> value -> nat -> result Generator;
    get_ckpt_path : string -> result string;
    degenerate_logvar : R }.

(** [torch.randn] with the given sizes: the next [numel size] samples
    of the default generator. *)
Definition randn `{Torch} (size : list nat) : M tensor := fun w =>
  (Ok (Tensor size (map normal_stream (seq (rng_offset w) (numel size)))),
   {| cudnn_benchmark := cudnn_benchmark w;
      rng_offset := (rng_offset w + numel size)%nat;
      calls := calls w |}).

(** ** Image preprocessing *)

Definition rescale (x : R) : R := (0.5 * (x + 1))%R.

(** [torchvision.transforms.Normalize(mean, std)] on one image: at least
    three axes [.., C, H, W]; [mean] and [std] are viewed as [(-1, 1, 1)]
    and subtracted and divided in place, so they have to broadcast to
    the image's own shape. *)
Definition Normalize (mean std : list Q) (x : tensor) : result tensor :=
  match rev (shape x) with
  | w :: h :: c :: _ =>
      if existsb (fun s => Qeq_bool s 0) std then Raise ValueError
      else
        let fits (n : nat) := ((n =? 1) || (n =? c))%nat in
        if fits (length mean) && fits (length std) then
          let pick (l : list Q) (ch : nat) : R :=
            Q2R (nth (if (length l =? 1)%nat then 0%nat else ch) l 0%Q) in
          Ok (Tensor (shape x)
                (imap (fun k v =>
                         let ch := ((k / (h * w)) mod c)%nat in
                         ((v - pick mean ch) / pick std ch)%R)
                      (data x)))
        else Raise RuntimeError
  | _ => Raise ValueError
  end.

(** [for x in image]: the slices along the first axis. *)
Definition unbind0 (x : tensor) : result (list tensor) :=
  match shape x with
  | [] => Raise TypeError
  | n :: tail =>
      Ok (map (fun i => Tensor tail
                          (take (numel tail) (drop (i * numel tail) (data x))))
              (seq 0 n))
  end.

(** [torch.stack]. *)
Definition stack (ts : list tensor) : result tensor :=
  match ts with
  | [] => Raise RuntimeError
  | t0 :: rest =>
      if forallb (fun t' => bool_decide (shape t' = shape t0)) rest
      then Ok (Tensor (length ts :: shape t0) (concat (map data ts)))
      else Raise RuntimeError
  end.

Fixpoint map_result {A B} (f : A -> result B) (l : list A) : result (list B) :=
  match l with
  | [] => Ok []
  | a :: l' => b ← f a; bs ← map_result f l'; mret (b :: bs)
  end.

(** The residual stages of a torchvision ResNet up to the pooled feature
    map, without preprocessing and without the head. *)
Definition backbone (m : ResNet) (x : tensor) : result tensor :=
  x ← conv1 m x;
  x ← bn1 m x;
  x ← relu m x;
  x ← maxpool m x;
  x ← layer1 m x;
  x ← layer2 m x;
  x ← layer3 m x;
  x ← layer4 m x;
  avgpool m x.

(** [_norm_options] *)
Definition _norm_options : gmap string norm_layer :=
  {[ "in" := InstanceNorm2d; "bn" := BatchNorm2d; "an" := ActNorm ]}.

(** ** ResnetEncoder *)

Module ResnetEncoder.

Record t : Type :=
  { config : value;
    type_ : value;
    z_dim : value;
    model : ResNet;
    image_transform : tensor -> result tensor }.

Definition mean (self : t) : list Q := [0.485; 0.456; 0.406]%Q.
Definition std (self : t) : list Q := [0.229; 0.224; 0.225]%Q.
Definition input_size (self : t) : list Z := [3; 224; 224]%Z.

Definition __possible_resnets : gmap string resnet_kind :=
  {[ "resnet18" := resnet18; "resnet34" := resnet34;
     "resnet50" := resnet50; "resnet101" := resnet101 ]}.

Definition call_head `{Torch} (h : Head) (x : tensor) : result tensor :=
  match h with
  | OriginalFc f => f x
  | DenseHead d => DenseEncoderLayer.forward Conv2d_forward d x
  end.

Definition _pre_process (self : t) (x : tensor) : result tensor :=
  image_transform self x.

Definition features (self : t) (x : tensor) : result tensor :=
  x ← _pre_process self x;
  x ← conv1 (model self) x;
  x ← bn1 (model self) x;
  x ← relu (model self) x;
  x ← maxpool (model self) x;
  x ← layer1 (model self) x;
  x ← layer2 (model self) x;
  x ← layer3 (model self) x;
  x ← layer4 (model self) x;
  x ← avgpool (model self) x;
  mret x.

Definition post_features `{Torch} (self : t) (x : tensor) : result tensor :=
  call_head (fc (model self)) x.

Definition forward `{Torch} (self : t) (x : tensor) : result tensor :=
  x ← _pre_process self x;
  features ← features self x;
  encoding ← call_head (fc (model self)) features;
  mret encoding.

Definition _get_spatial_size `{Torch} (self : t) (ipt_size : value)
  : M (list nat) :=
  s ← liftR (as_dim ipt_size);
  x ← randn [1; 3; s; s]%nat;
  liftR (y ← features self x; mret (shape y)).

(** [size[i]] on a [torch.Size]. *)
Definition size_at (size : list nat) (i : nat) : result nat :=
  match size !! i with
  | Some d => Ok d
  | None => Raise IndexError
  end.

(** The [Lambda] inside [self.image_transform]:
    [torch.stack([normalize(rescale(x)) for x in image])]. *)
Definition stack_normalized (normalize : tensor -> result tensor)
    (image : tensor) : result tensor :=
  xs ← unbind0 image;
  ys ← map_result (fun x => normalize (map_entries rescale x)) xs;
  stack ys.

(** [__init__] up to and including the probe [_get_spatial_size]. *)
Definition init_probe `{Torch} (config : value) : M (t * list nat) :=
  z_dim ← liftR (retrieve config "Model/z_dim" None);
  ipt_size ← liftR (retrieve config "Model/in_size" None);
  type_ ← liftR (retrieve config "Model/type" (Some (VStr "resnet50")));
  load_pretrained ← liftR (retrieve config "Model/pretrained" None);
  norm_key ← liftR (retrieve config "Model/norm" None);
  norm_layer ← liftR (dict_getitem _norm_options norm_key);
  kind ← liftR (dict_getitem __possible_resnets type_);
  _ ← log (CallResnet kind load_pretrained norm_layer);
  model ← liftR (torchvision_resnet kind load_pretrained norm_layer);
  let self :=
    {| config := config; type_ := type_; z_dim := z_dim; model := model;
       image_transform := fun _ => Raise (AttributeError "image_transform") |} in
  let normalize := Normalize (mean self) (std self) in
  let self :=
    {| config := config; type_ := type_; z_dim := z_dim; model := model;
       image_transform := stack_normalized normalize |} in
  size_pre_fc ← _get_spatial_size self ipt_size;
  mret (self, size_pre_fc).

(** [__init__] from the assertion on: the head replaces [model.fc]. *)
Definition init_head (self : t) (size_pre_fc : list nat) : M t :=
  h ← liftR (size_at size_pre_fc 2);
  w ← liftR (size_at size_pre_fc 3);
  if negb (h =? w)%nat
  then raiseM (AssertionError "Output spatial size is not quadratic")
  else
    let spatial_size := h in
    num_channels_pre_fc ← liftR (size_at size_pre_fc 1);
    z ← liftR (as_int (z_dim self));
    head ← liftR (DenseEncoderLayer.init 0 (Z.of_nat spatial_size) (2 * z)
                    (Some (Z.of_nat num_channels_pre_fc)) 1);
    mret {| config := config self; type_ := type_ self; z_dim := z_dim self;
            model := set_fc (model self) (DenseHead head);
            image_transform := image_transform self |}.

Definition init `{Torch} (config : value) : M t :=
  probed ← init_probe config;
  init_head (fst probed) (snd probed).

End ResnetEncoder.

(** ** BigGANDecoderWrapper *)

Module BigGANDecoderWrapper.

Record t : Type :=
  { map_to_class_embedding : ClassUp.t;
    decoder : Generator }.

Definition init `{Torch} `{Package} (config : value) : M t :=
  z_dim ← liftR (retrieve config "Model/z_dim" None);
  image_size ← liftR (retrieve config "Model/in_size" (Some (VInt 128)));
  use_actnorm ← liftR (retrieve config "Model/use_actnorm_in_dec"
                         (Some (VBool false)));
  pretrained ← liftR (retrieve config "Model/pretrained" (Some (VBool true)));
  let class_embedding_dim := 1000%nat in
  dim ← liftR (as_dim z_dim);
  let map_to_class_embedding :=
    ClassUp.init linear_parameters dim 2 (2 * class_embedding_dim) false
                 (Some class_embedding_dim) in
  _ ← log (CallGenerator image_size z_dim pretrained use_actnorm
             class_embedding_dim);
  decoder ← liftR (load_variable_latsize_generator image_size z_dim
                     pretrained use_actnorm class_embedding_dim);
  mret {| map_to_class_embedding := map_to_class_embedding;
          decoder := decoder |}.

Definition forward {L : Type} (self : t) (x : tensor) (labels : option L)
  : result tensor :=
  emb ← ClassUp.forward (map_to_class_embedding self) x;
  x ← generate (decoder self) x emb;
  mret x.

End BigGANDecoderWrapper.

(** ** DiagonalGaussianDistribution *)

Module DiagonalGaussianDistribution.

Record t : Type :=
  { parameters : tensor;
    mean : tensor;
    logvar : tensor;
    deterministic : bool }.

(** Modelled from the spec: the split of the encoder output "into two
    halves along the channel axis" (section 3).  Half [part] (0 or 1)
    of [x] along axis 1; an odd number of channels has no halves. *)
Definition half_dim1 (part : nat) (x : tensor) : result tensor :=
  match shape x with
  | d0 :: d1 :: rest =>
      if Nat.even d1 then
        let h := (d1 / 2)%nat in
        let inner := numel rest in
        Ok (Tensor (d0 :: h :: rest)
              (tabulate (d0 * h * inner) (fun k =>
                 let a := (k / (h * inner))%nat in
                 let j := ((k / inner) mod h)%nat in
                 let r := (k mod inner)%nat in
                 at_ x ((a * d1 + (part * h + j)) * inner + r))))
      else Raise ValueError
  | _ => Raise IndexError
  end.

(** Modelled from the spec: the class [DiagonalGaussianDistribution] of
    [autoencoders.distributions], which [bigae.py] imports.  Section 3:
    the distribution is parameterized by a mean and a log-variance of
    equal shape, the two halves of the encoder output along the channel
    axis; with the deterministic flag the log-variance is forced to a
    canonical degenerate value. *)
Definition init `{Package} (parameters : tensor) (deterministic : value)
  : result t :=
  mean ← half_dim1 0 parameters;
  logvar ← half_dim1 1 parameters;
  let logvar :=
    if truthy deterministic
    then full (shape mean) degenerate_logvar
    else logvar in
  mret {| parameters := parameters; mean := mean; logvar := logvar;
          deterministic := truthy deterministic |}.

(** Modelled from the spec: the sampling operation of the same class.
    Sections 3 and 8: a deterministic distribution is a point mass and
    sampling returns its mean; otherwise a draw from the diagonal
    Gaussian with that mean and log-variance. *)
Definition sample `{Torch} (self : t) : M tensor :=
  if deterministic self then mret (mean self)
  else
    eps ← randn (shape (mean self));
    mret (Tensor (shape (mean self))
            (tabulate (numel (shape (mean self))) (fun k =>
               (at_ (mean self) k
                + exp (0.5 * at_ (logvar self) k) * at_ eps k)%R))).

(** Modelled from the spec: the mode of the same class (section 6, the
    command-line demo decodes the distribution's mode). *)
Definition mode (self : t) : tensor := mean self.

End DiagonalGaussianDistribution.

(** ** BigAE *)

Module BigAE.

Record t : Type :=
  { be_deterministic : value;
    encoder : ResnetEncoder.t;
    decoder : BigGANDecoderWrapper.t;
    training : bool }.

(** [torch.load] and [nn.Module.load_state_dict]. *)
Class Checkpoints : Type :=
  { torch_load : string -> result (gmap string tensor);
    load_state_dict : t -> gmap string tensor -> result t }.

Definition set_cudnn_benchmark (b : bool) : M unit := fun w =>
  (Ok tt, {| cudnn_benchmark := b;
             rng_offset := rng_offset w;
             calls := calls w |}).

Definition init `{Torch} `{Package} (config : value) : M t :=
  _ ← set_cudnn_benchmark true;
  be_deterministic ← liftR (retrieve config "Model/deterministic"
                              (Some (VBool false)));
  encoder ← ResnetEncoder.init config;
  decoder ← BigGANDecoderWrapper.init config;
  mret {| be_deterministic := be_deterministic;
          encoder := encoder;
          decoder := decoder;
          training := true |}.

Definition preset (norm : string) (use_actnorm_in_dec : bool) : value :=
  VDict {[ "Model" :=
    VDict {[ "deterministic" := VBool false;
             "in_size" := VInt 128;
             "norm" := VStr norm;
             "pretrained" := VBool false;
             "type" := VStr "resnet101";
             "use_actnorm_in_dec" := VBool use_actnorm_in_dec;
             "z_dim" := VInt 128 ]} ]}.

Definition config_dict : gmap string value :=
  {[ "animals" := preset "an" true;
     "animalfaces" := preset "bn" false ]}.

Definition ckpt_dict : gmap string string :=
  {[ "animals" := "bigae_animals";
     "animalfaces" := "bigae_animalfaces" ]}.

(** [model.eval()] *)
Definition eval (self : t) : t :=
  {| be_deterministic := be_deterministic self;
     encoder := encoder self;
     decoder := decoder self;
     training := false |}.

Definition from_pretrained `{Torch} `{Package} `{Checkpoints} (name : string)
  : M t :=
  match config_dict !! name with
  | None => raiseM (NotImplementedError name)
  | Some config =>
      model ← init config;
      ckpt_name ← liftR (dict_getitem ckpt_dict (VStr name));
      _ ← log (CallGetCkptPath ckpt_name);
      ckpt ← liftR (get_ckpt_path ckpt_name);
      _ ← log (CallTorchLoad ckpt);
      state ← liftR (torch_load ckpt);
      model ← liftR (load_state_dict model state);
      mret (eval model)
  end.

Definition encode `{Torch} `{Package} (self : t) (input : tensor)
  : result DiagonalGaussianDistribution.t :=
  let h := input in
  h ← ResnetEncoder.forward (encoder self) h;
  DiagonalGaussianDistribution.init h (be_deterministic self).

Definition decode (self : t) (input : tensor) : result tensor :=
  let h := input in
  BigGANDecoderWrapper.forward (decoder self) (squeeze_last (squeeze_last h))
                               (@None tensor).

Definition get_last_layer (self : t) : tensor :=
  colorize_weight_bar (BigGANDecoderWrapper.decoder (decoder self)).

End BigAE.

(** ** Vocabulary of the statements below *)

(** The layer stack takes every tensor of shape [s] to one of shape [s']. *)
Definition maps_shape (layers : list Layer) (s s' : list nat) : Prop :=
  forall x, shape x = s ->
    exists y, Sequential_forward layers x = Ok y /\ shape y = s'.




Definition keeps_benchmark {A} (c : M A) : Prop :=
  forall w, cudnn_benchmark (snd (c w)) = cudnn_benchmark w.

Definition keeps_rng {A} (c : M A) : Prop :=
  forall w, rng_offset (snd (c w)) = rng_offset w.

Definition extends_calls {A} (c : M A) : Prop :=
  forall w, exists l, calls (snd (c w)) = calls w ++ l.

(** ** A small instantiation of the collaborators

    Zero-weight layers around an adaptive average pool; enough to run
    the constructors and the forward passes on concrete inputs. *)

Module Reference.

Definition zero_linear : LinearParams :=
  {| weight := fun _ _ => 0%R; bias := fun _ => 0%R |}.

(** [nn.AdaptiveAvgPool2d((1, 1))], the [avgpool] of torchvision's
    ResNets. *)
Definition adaptive_avgpool (x : tensor) : result tensor :=
  match shape x with
  | [n; c; h; w] =>
      Ok (Tensor [n; c; 1; 1]%nat
            (tabulate (n * c) (fun k =>
               (Rsum (h * w) (fun i => at_ x (k * (h * w) + i))
                / INR (h * w))%R)))
  | _ => Raise RuntimeError
  end.

Definition resnet : ResNet :=
  {| conv1 := Ok; bn1 := Ok; relu := Ok; maxpool := Ok;
     layer1 := Ok; layer2 := Ok; layer3 := Ok; layer4 := Ok;
     avgpool := adaptive_avgpool;
     fc := OriginalFc Ok |}.

(** A convolution whose weights are all one and whose bias is zero:
    every output channel is the sum over the input window. *)
Definition box_conv (c : Conv2d) (x : tensor) : result tensor :=
  match shape x with
  | [n; ch; h; w] =>
      let k := Z.to_nat (conv_kernel_size c) in
      if (Z.of_nat ch =? conv_in_channels c)%Z && (k <=? h)%nat && (k <=? w)%nat
      then
        let out := Z.to_nat (conv_out_channels c) in
        let h' := (h - k + 1)%nat in
        let w' := (w - k + 1)%nat in
        Ok (Tensor [n; out; h'; w']
              (tabulate (n * out * h' * w') (fun q =>
                 let j := (q mod w')%nat in
                 let i := ((q / w') mod h')%nat in
                 let b := (q / (w' * h' * out))%nat in
                 Rsum ch (fun cc =>
                   Rsum k (fun u =>
                     Rsum k (fun v =>
                       at_ x (((b * ch + cc) * h + (i + u)) * w + (j + v))))))))
      else Raise RuntimeError
  | _ => Raise RuntimeError
  end.

Definition torch : Torch :=
  {| torchvision_resnet := fun _ _ _ => Ok resnet;
     Conv2d_forward := box_conv;
     linear_parameters := fun _ => zero_linear;
     normal_stream := fun _ => 0%R |}.

(** The same, except that the pooled feature map comes out as 1 x 2. *)
Definition skewed_resnet : ResNet :=
  {| conv1 := Ok; bn1 := Ok; relu := Ok; maxpool := Ok;
     layer1 := Ok; layer2 := Ok; layer3 := Ok; layer4 := Ok;
     avgpool := fun x => Ok (Tensor [1; 1; 1; 2]%nat [0%R; 0%R]);
     fc := OriginalFc Ok |}.

Definition skewed_torch : Torch :=
  {| torchvision_resnet := fun _ _ _ => Ok skewed_resnet;
     Conv2d_forward := box_conv;
     linear_parameters := fun _ => zero_linear;
     normal_stream := fun _ => 0%R |}.

Definition package : Package :=
  {| load_variable_latsize_generator := fun _ _ _ _ _ =>
       Ok {| generate := fun z emb => Ok emb;
             colorize_weight_bar := Tensor [] [0%R] |};
     get_ckpt_path := fun name => Ok (String.append "ckpt/" name);
     degenerate_logvar := 0%R |}.

Definition checkpoints : BigAE.Checkpoints :=
  {| BigAE.torch_load := fun _ => Ok ∅;
     BigAE.load_state_dict := fun m _ => Ok m |}.

Definition world0 : world :=
  {| cudnn_benchmark := false; rng_offset := 0; calls := [] |}.

(** A model put together by hand: identity preprocessing and
    backbone, the features returned as the encoding. *)
Definition identity_encoder : ResnetEncoder.t :=
  {| ResnetEncoder.config := VDict ∅;
     ResnetEncoder.type_ := VStr "resnet50";
     ResnetEncoder.z_dim := VInt 1;
     ResnetEncoder.model :=
       {| conv1 := Ok; bn1 := Ok; relu := Ok; maxpool := Ok;
          layer1 := Ok; layer2 := Ok; layer3 := Ok; layer4 := Ok;
          avgpool := Ok; fc := OriginalFc Ok |};
     ResnetEncoder.image_transform := Ok |}.

Definition deterministic_model : BigAE.t :=
  {| BigAE.be_deterministic := VBool true;
     BigAE.encoder := identity_encoder;
     BigAE.decoder :=
       {| BigGANDecoderWrapper.map_to_class_embedding :=
            ClassUp.init (fun _ => zero_linear) 1 0 1 false None;
          BigGANDecoderWrapper.decoder :=
            {| generate := fun z emb => Ok emb;
               colorize_weight_bar := Tensor [] [0%R] |} |};
     BigAE.training := false |}.

(** A configuration with a 2-dimensional latent. *)
Definition small_config (norm : value) (in_size : value) : value :=
  VDict {[ "Model" :=
    VDict {[ "deterministic" := VBool true;
             "in_size" := in_size;
             "norm" := norm;
             "pretrained" := VBool false;
             "z_dim" := VInt 2 ]} ]}.

End Reference.

(** ** Vocabulary of the further properties *)

Definition is_Linear (l : Layer) : bool :=
  match l with
  | Linear _ _ _ => true
  | _ => false
  end.

(** Configurations and inputs on which the further properties are run. *)
Module Examples.

(** Only the latent size is configured. *)
Definition latent_only (z : Z) : value :=
  VDict {[ "Model" := VDict {[ "z_dim" := VInt z ]} ]}.

(** A full configuration for 1 x 1 inputs with latent size [z]. *)
Definition tiny_config (z : value) : value :=
  VDict {[ "Model" :=
    VDict {[ "in_size" := VInt 1;
             "norm" := VStr "bn";
             "pretrained" := VBool false;
             "z_dim" := z ]} ]}.

(** The same with a backbone type. *)
Definition typed_config (ty : string) : value :=
  VDict {[ "Model" :=
    VDict {[ "in_size" := VInt 1;
             "norm" := VStr "bn";
             "pretrained" := VBool false;
             "type" := VStr ty;
             "z_dim" := VInt 2 ]} ]}.

(** A configuration made of the given entries under "Model". *)
Definition model_section (entries : gmap string value) : value :=
  VDict {[ "Model" := VDict entries ]}.

End Examples.

(** The computation reaches no outside collaborator. *)
Definition keeps_calls {A} (c : M A) : Prop :=
  forall w, calls (snd (c w)) = calls w.

(** * Properties *)

Lemma bind_Ok_inv {A B} (r : result A) (k : A -> result B) (b : B) :
  r ≫= k = Ok b -> exists a, r = Ok a /\ k a = Ok b.
Proof. destruct r as [a|e]; simpl; [eauto | discriminate]. Qed.

(** ** Sums and tabulated data *)

Section Sums.

Local Open Scope R_scope.









End Sums.

(** ** ClassUp: shapes through the layer stack *)

Section ClassUpShapes.

Lemma Sequential_forward_app (l1 l2 : list Layer) (x : tensor) :
  Sequential_forward (l1 ++ l2) x
  = Sequential_forward l1 x ≫= Sequential_forward l2.
Proof.
  revert x. induction l1 as [|l l1 IH]; intros x; simpl; [reflexivity|].
  destruct (Layer_forward l x) as [x'|e]; simpl; [apply IH | reflexivity].
Qed.

Lemma maps_shape_app (l1 l2 : list Layer) (s1 s2 s3 : list nat) :
  maps_shape l1 s1 s2 -> maps_shape l2 s2 s3 -> maps_shape (l1 ++ l2) s1 s3.
Proof.
  intros H1 H2 x Hx. rewrite Sequential_forward_app.
  destruct (H1 x Hx) as (y & -> & Hy). simpl. now apply H2.
Qed.



Lemma maps_shape_LeakyReLU (s : list nat) : maps_shape [LeakyReLU] s s.
Proof. intros x Hx. simpl. eexists; split; [reflexivity | exact Hx]. Qed.

Lemma maps_shape_Sigmoid (s : list nat) : maps_shape [Sigmoid] s s.
Proof. intros x Hx. simpl. eexists; split; [reflexivity | exact Hx]. Qed.





End ClassUpShapes.

(** ** Softmax over the rows of a matrix *)

Section Softmax.

Local Open Scope R_scope.



End Softmax.

(** ** ClassUp.forward ends in a softmax *)

Section ClassUpForward.

Local Open Scope R_scope.




End ClassUpForward.

(** ** ResnetEncoder.forward *)

Section EncoderForward.

Context `{Torch}.

Lemma features_backbone (self : ResnetEncoder.t) (x : tensor) :
  ResnetEncoder.features self x
  = ResnetEncoder._pre_process self x ≫= backbone (ResnetEncoder.model self).
Proof.
  unfold ResnetEncoder.features, backbone.
  destruct (ResnetEncoder._pre_process self x) as [x0|]; [|reflexivity].
  cbn [mbind result_bind mret result_ret].
  repeat (match goal with
          | |- (?r ≫= _) = _ =>
              destruct r as [?|?];
              cbn [mbind result_bind mret result_ret]; [|reflexivity]
          end).
  reflexivity.
Qed.

(** The composable path, [post_features] after [features], runs the
    transform once. *)
Lemma features_then_head_preprocesses_once
    (self : ResnetEncoder.t) (x : tensor) :
  ResnetEncoder.features self x ≫= ResnetEncoder.post_features self
  = (x1 ← ResnetEncoder._pre_process self x;
     f ← backbone (ResnetEncoder.model self) x1;
     ResnetEncoder.call_head (fc (ResnetEncoder.model self)) f).
Proof.
  rewrite features_backbone. unfold ResnetEncoder.post_features.
  destruct (ResnetEncoder._pre_process self x) as [x1|]; reflexivity.
Qed.

(** C2.  What the code does: [forward] runs the preprocessing
    transform, and [features], which it then calls, runs it again; the
    backbone sees the twice-preprocessed input, and the dense head is
    applied to its feature map. *)
Theorem ResnetEncoder_forward_preprocesses_twice
    (self : ResnetEncoder.t) (x : tensor) :
  ResnetEncoder.forward self x
  = (x1 ← ResnetEncoder._pre_process self x;
     x2 ← ResnetEncoder._pre_process self x1;
     f ← backbone (ResnetEncoder.model self) x2;
     ResnetEncoder.call_head (fc (ResnetEncoder.model self)) f).
Proof.
  unfold ResnetEncoder.forward.
  destruct (ResnetEncoder._pre_process self x) as [x1|]; [|reflexivity].
  cbn [mbind result_bind]. rewrite features_backbone.
  destruct (ResnetEncoder._pre_process self x1) as [x2|]; [|reflexivity].
  cbn [mbind result_bind].
  destruct (backbone (ResnetEncoder.model self) x2) as [f|]; [|reflexivity].
  cbn [mbind result_bind mret result_ret].
  now destruct (ResnetEncoder.call_head _ f).
Qed.

End EncoderForward.


(** On an encoder constructed for 1 x 1 inputs with the reference
    collaborators and a black 1 x 3 x 1 x 1 image, [forward] and the
    head applied to [features] disagree. *)
Lemma ResnetEncoder_forward_differs_from_features_then_head :
  exists enc,
    fst (@ResnetEncoder.init Reference.torch
           (Reference.small_config (VStr "bn") (VInt 1)) Reference.world0)
    = Ok enc /\
    @ResnetEncoder.forward Reference.torch enc
      (Tensor [1; 3; 1; 1]%nat [0; 0; 0]%R)
    <> (ResnetEncoder.features enc (Tensor [1; 3; 1; 1]%nat [0; 0; 0]%R)
        ≫= @ResnetEncoder.post_features Reference.torch enc).
Proof.
  eexists. split; [vm_compute; reflexivity|].
  vm_compute. intros Heq. injection Heq as Heq _ _ _. lra.
Qed.

(** ** Stepping through [M] *)

Section MonadSteps.

Context {A B : Type}.

Lemma bindM_Ok_inv (c : M A) (k : A -> M B) (w w' : world) (b : B) :
  (c ≫= k) w = (Ok b, w') ->
  exists a w1, c w = (Ok a, w1) /\ k a w1 = (Ok b, w').
Proof.
  unfold mbind, M_bind. destruct (c w) as [[a|e] w1]; intros Hk.
  - eauto.
  - discriminate.
Qed.


Lemma bindM_liftR_Ok (r : result A) (a : A) (k : A -> M B) (w : world) :
  r = Ok a -> (liftR r ≫= k) w = k a w.
Proof. intros ->. reflexivity. Qed.

Lemma bindM_liftR_Raise (r : result A) (e : exn) (k : A -> M B) (w : world) :
  r = Raise e -> (liftR r ≫= k) w = (Raise e, w).
Proof. intros ->. reflexivity. Qed.

Lemma liftR_Ok_inv (r : result A) (a : A) (w w' : world) :
  liftR r w = (Ok a, w') -> r = Ok a /\ w' = w.
Proof. unfold liftR. intros [= -> ->]. auto. Qed.

End MonadSteps.

(** ** What a computation leaves alone *)

Create HintDb frame.

Section Frames.

Context {A B : Type}.

Lemma keeps_benchmark_bind (c : M A) (k : A -> M B) :
  keeps_benchmark c -> (forall a, keeps_benchmark (k a)) ->
  keeps_benchmark (c ≫= k).
Proof.
  intros Hc Hk w. unfold mbind, M_bind.
  specialize (Hc w). destruct (c w) as [[a|e] w1]; simpl in *.
  - now rewrite Hk.
  - exact Hc.
Qed.

Lemma keeps_rng_bind (c : M A) (k : A -> M B) :
  keeps_rng c -> (forall a, keeps_rng (k a)) -> keeps_rng (c ≫= k).
Proof.
  intros Hc Hk w. unfold mbind, M_bind.
  specialize (Hc w). destruct (c w) as [[a|e] w1]; simpl in *.
  - now rewrite Hk.
  - exact Hc.
Qed.

Lemma extends_calls_bind (c : M A) (k : A -> M B) :
  extends_calls c -> (forall a, extends_calls (k a)) ->
  extends_calls (c ≫= k).
Proof.
  intros Hc Hk w. unfold mbind, M_bind.
  destruct (Hc w) as [l Hl]. destruct (c w) as [[a|e] w1]; simpl in *.
  - destruct (Hk a w1) as [l' Hl']. exists (l ++ l').
    now rewrite Hl', Hl, app_assoc.
  - eauto.
Qed.

Lemma keeps_benchmark_liftR (r : result A) : keeps_benchmark (liftR r).
Proof. intros w. reflexivity. Qed.

Lemma keeps_rng_liftR (r : result A) : keeps_rng (liftR r).
Proof. intros w. reflexivity. Qed.

Lemma extends_calls_liftR (r : result A) : extends_calls (liftR r).
Proof. intros w. exists []. simpl. now rewrite app_nil_r. Qed.

Lemma keeps_benchmark_mret (a : A) : keeps_benchmark (mret a).
Proof. intros w. reflexivity. Qed.

Lemma keeps_rng_mret (a : A) : keeps_rng (mret a).
Proof. intros w. reflexivity. Qed.

Lemma extends_calls_mret (a : A) : extends_calls (mret a).
Proof. intros w. exists []. simpl. now rewrite app_nil_r. Qed.

Lemma keeps_benchmark_raiseM (e : exn) : keeps_benchmark (@raiseM A e).
Proof. intros w. reflexivity. Qed.

Lemma keeps_rng_raiseM (e : exn) : keeps_rng (@raiseM A e).
Proof. intros w. reflexivity. Qed.

Lemma extends_calls_raiseM (e : exn) : extends_calls (@raiseM A e).
Proof. intros w. exists []. simpl. now rewrite app_nil_r. Qed.

End Frames.

Lemma keeps_benchmark_log (ev : event) : keeps_benchmark (log ev).
Proof. intros w. reflexivity. Qed.

Lemma keeps_rng_log (ev : event) : keeps_rng (log ev).
Proof. intros w. reflexivity. Qed.

Lemma extends_calls_log (ev : event) : extends_calls (log ev).
Proof. intros w. exists [ev]. reflexivity. Qed.

Lemma keeps_benchmark_randn `{Torch} (size : list nat) :
  keeps_benchmark (randn size).
Proof. intros w. reflexivity. Qed.

Lemma extends_calls_randn `{Torch} (size : list nat) :
  extends_calls (randn size).
Proof. intros w. exists []. simpl. now rewrite app_nil_r. Qed.

#[local] Hint Resolve
  keeps_benchmark_liftR keeps_benchmark_mret keeps_benchmark_raiseM
  keeps_benchmark_log keeps_benchmark_randn
  keeps_rng_liftR keeps_rng_mret keeps_rng_raiseM keeps_rng_log
  extends_calls_liftR extends_calls_mret extends_calls_raiseM
  extends_calls_log extends_calls_randn : frame.

(** Peel the binds of a computation, closing the leaves with [frame]. *)
Ltac frame_steps :=
  repeat first
    [ apply keeps_benchmark_bind; [|intros ?]
    | apply keeps_rng_bind; [|intros ?]
    | apply extends_calls_bind; [|intros ?]
    | progress cbv zeta
    | match goal with
      | |- context [if ?b then _ else _] => destruct b
      | |- context [match ?x with Some _ => _ | None => _ end] => destruct x
      end
    | solve [auto with frame] ].

Section ConstructorFrames.

Context `{Torch} `{Package}.

Lemma keeps_benchmark_encoder_init (config : value) :
  keeps_benchmark (ResnetEncoder.init config).
Proof.
  unfold ResnetEncoder.init, ResnetEncoder.init_probe,
    ResnetEncoder.init_head, ResnetEncoder._get_spatial_size.
  frame_steps.
Qed.

Lemma extends_calls_encoder_init (config : value) :
  extends_calls (ResnetEncoder.init config).
Proof.
  unfold ResnetEncoder.init, ResnetEncoder.init_probe,
    ResnetEncoder.init_head, ResnetEncoder._get_spatial_size.
  frame_steps.
Qed.

Lemma keeps_rng_encoder_init_head (self : ResnetEncoder.t) (size : list nat) :
  keeps_rng (ResnetEncoder.init_head self size).
Proof. unfold ResnetEncoder.init_head. frame_steps. Qed.

Lemma keeps_benchmark_decoder_init (config : value) :
  keeps_benchmark (BigGANDecoderWrapper.init config).
Proof. unfold BigGANDecoderWrapper.init. frame_steps. Qed.

Lemma keeps_rng_decoder_init (config : value) :
  keeps_rng (BigGANDecoderWrapper.init config).
Proof. unfold BigGANDecoderWrapper.init. frame_steps. Qed.

Lemma extends_calls_decoder_init (config : value) :
  extends_calls (BigGANDecoderWrapper.init config).
Proof. unfold BigGANDecoderWrapper.init. frame_steps. Qed.

End ConstructorFrames.

(** ** The probe of ResnetEncoder.__init__ *)

Section Probe.

Context `{Torch}.

Lemma as_dim_Ok_inv (v : value) (s : nat) :
  as_dim v = Ok s -> exists z, v = VInt z /\ (0 <= z)%Z /\ s = Z.to_nat z.
Proof.
  destruct v as [| |z| | |]; simpl; try discriminate.
  destruct (Z.ltb_spec z 0); [discriminate|].
  intros [= <-]. eauto.
Qed.

Lemma get_spatial_size_Ok_inv (self : ResnetEncoder.t) (ipt : value)
    (w w' : world) (size : list nat) :
  ResnetEncoder._get_spatial_size self ipt w = (Ok size, w') ->
  exists s y,
    as_dim ipt = Ok s /\
    ResnetEncoder.features self
      (Tensor [1; 3; s; s]%nat
         (map normal_stream (seq (rng_offset w) (numel [1; 3; s; s]%nat))))
      = Ok y /\
    size = shape y /\
    rng_offset w' = (rng_offset w + 3 * s * s)%nat /\
    cudnn_benchmark w' = cudnn_benchmark w /\
    calls w' = calls w.
Proof.
  unfold ResnetEncoder._get_spatial_size. intros Hrun.
  apply bindM_Ok_inv in Hrun as (s & w1 & Hs & Hrun).
  apply liftR_Ok_inv in Hs as [Hs ->].
  apply bindM_Ok_inv in Hrun as (x & w2 & Hx & Hrun).
  unfold randn in Hx. injection Hx as <- <-.
  apply liftR_Ok_inv in Hrun as [Hy ->].
  apply bind_Ok_inv in Hy as (y & Hy & [= <-]).
  exists s, y. repeat split; try assumption; try reflexivity.
  cbn [rng_offset numel fold_right]. lia.
Qed.

(** What a successful probe has done: the backbone was built by
    torchvision, the transform is the normalisation with the constants
    of [mean] and [std], and the feature extractor ran once, on a
    square [1 x 3 x s x s] draw from the default generator. *)
Lemma init_probe_Ok_inv (config : value) (w w' : world)
    (self : ResnetEncoder.t) (size : list nat) :
  ResnetEncoder.init_probe config w = (Ok (self, size), w') ->
  exists (z : Z) (y : tensor) (kind : resnet_kind) (p : value) (n : norm_layer),
    retrieve config "Model/in_size" None = Ok (VInt z) /\ (0 <= z)%Z /\
    torchvision_resnet kind p n = Ok (ResnetEncoder.model self) /\
    ResnetEncoder.image_transform self
      = ResnetEncoder.stack_normalized
          (Normalize (ResnetEncoder.mean self) (ResnetEncoder.std self)) /\
    ResnetEncoder.features self
      (Tensor [1; 3; Z.to_nat z; Z.to_nat z]%nat
         (map normal_stream
              (seq (rng_offset w) (numel [1; 3; Z.to_nat z; Z.to_nat z]%nat))))
      = Ok y /\
    size = shape y /\
    rng_offset w' = (rng_offset w + 3 * Z.to_nat z * Z.to_nat z)%nat /\
    cudnn_benchmark w' = cudnn_benchmark w.
Proof.
  unfold ResnetEncoder.init_probe. intros Hrun.
  apply bindM_Ok_inv in Hrun as (zd & w1 & Hzd & Hrun).
  apply liftR_Ok_inv in Hzd as [Hzd ->].
  apply bindM_Ok_inv in Hrun as (ipt & w1 & Hipt & Hrun).
  apply liftR_Ok_inv in Hipt as [Hipt ->].
  apply bindM_Ok_inv in Hrun as (ty & w1 & Hty & Hrun).
  apply liftR_Ok_inv in Hty as [Hty ->].
  apply bindM_Ok_inv in Hrun as (lp & w1 & Hlp & Hrun).
  apply liftR_Ok_inv in Hlp as [Hlp ->].
  apply bindM_Ok_inv in Hrun as (nk & w1 & Hnk & Hrun).
  apply liftR_Ok_inv in Hnk as [Hnk ->].
  apply bindM_Ok_inv in Hrun as (nl & w1 & Hnl & Hrun).
  apply liftR_Ok_inv in Hnl as [Hnl ->].
  apply bindM_Ok_inv in Hrun as (kind & w1 & Hkind & Hrun).
  apply liftR_Ok_inv in Hkind as [Hkind ->].
  apply bindM_Ok_inv in Hrun as ([] & w1 & Hlog & Hrun).
  unfold log in Hlog. injection Hlog as <-.
  apply bindM_Ok_inv in Hrun as (m & w2 & Hm & Hrun).
  apply liftR_Ok_inv in Hm as [Hm ->].
  cbv zeta in Hrun.
  apply bindM_Ok_inv in Hrun as (sz & w2 & Hsz & Hrun).
  injection Hrun as <- <- <-.
  apply get_spatial_size_Ok_inv in Hsz
    as (s & y & Hs & Hy & -> & Hrng & Hflag & _).
  apply as_dim_Ok_inv in Hs as (z & -> & Hz & ->).
  exists z, y, kind, lp, nl.
  repeat split; try assumption; try reflexivity.
Qed.

End Probe.

(** ** The image transform keeps the shape *)

Section ImageTransform.



Lemma map_result_Ok {A B} (f : A -> result B) (l : list A) (P : B -> Prop) :
  (forall a, In a l -> exists b, f a = Ok b /\ P b) ->
  exists bs, map_result f l = Ok bs /\ Forall P bs /\ length bs = length l.
Proof.
  induction l as [|a l IH]; intros Hf; simpl.
  - exists []. repeat split. constructor.
  - destruct (Hf a (or_introl eq_refl)) as (b & -> & Hb).
    destruct IH as (bs & -> & Hbs & Hlen).
    { intros a' Ha'. apply Hf. now right. }
    exists (b :: bs). repeat split; [now constructor | simpl; now rewrite Hlen].
Qed.

Lemma stack_Ok (ts : list tensor) (s : list nat) :
  ts <> [] -> Forall (fun t => shape t = s) ts ->
  exists y, stack ts = Ok y /\ shape y = length ts :: s.
Proof.
  intros Hne Hall. destruct ts as [|t0 rest]; [congruence|].
  unfold stack. inversion Hall as [|? ? H0 Hrest]; subst.
  replace (forallb _ rest) with true.
  - eexists. split; reflexivity.
  - symmetry. apply forallb_forall. intros t' Ht'.
    apply bool_decide_eq_true. rewrite Forall_forall in Hrest.
    apply Hrest. now apply list_elem_of_In.
Qed.



(** It does return on a non-empty batch of three-channel images. *)
Lemma stack_normalized_Ok (self : ResnetEncoder.t) (n h w : nat) (x : tensor) :
  shape x = [S n; 3; h; w]%nat ->
  exists y,
    ResnetEncoder.stack_normalized
      (Normalize (ResnetEncoder.mean self) (ResnetEncoder.std self)) x = Ok y /\
    shape y = shape x.
Proof.
  intros Hx. unfold ResnetEncoder.stack_normalized, unbind0. rewrite Hx.
  cbn [mbind result_bind].
  edestruct (map_result_Ok
               (fun x0 => Normalize (ResnetEncoder.mean self)
                            (ResnetEncoder.std self) (map_entries rescale x0))
               (map (fun i => Tensor [3; h; w]%nat
                                (take (numel [3; h; w]%nat)
                                      (drop (i * numel [3; h; w]%nat) (data x))))
                    (seq 0 (S n)))
               (fun t => shape t = [3; h; w]%nat))
    as (ys & -> & Hall & Hlen).
  { intros a Ha. apply in_map_iff in Ha as (i & <- & _).
    eexists. split; reflexivity. }
  cbn [mbind result_bind].
  rewrite length_map, length_seq in Hlen.
  destruct (stack_Ok ys [3; h; w]%nat) as (y & -> & Hy).
  - destruct ys; [discriminate | discriminate].
  - exact Hall.
  - exists y. split; [reflexivity|]. now rewrite Hy, Hlen.
Qed.

End ImageTransform.

(** ** The squareness assertion of ResnetEncoder.__init__ *)

Section SquareAssertion.

Context `{Torch}.

Lemma init_after_probe (config : value) (w w1 : world)
    (self : ResnetEncoder.t) (size : list nat) :
  ResnetEncoder.init_probe config w = (Ok (self, size), w1) ->
  ResnetEncoder.init config w = ResnetEncoder.init_head self size w1.
Proof.
  intros Hprobe. unfold ResnetEncoder.init, mbind, M_bind.
  now rewrite Hprobe.
Qed.



(** A configured input size that is not an integer never lets the
    probe complete, so the assertion is not reached. *)
Lemma init_probe_needs_integer (config : value) (w w1 : world)
    (self : ResnetEncoder.t) (size : list nat) (ipt : value) :
  retrieve config "Model/in_size" None = Ok ipt ->
  (forall z, ipt <> VInt z) ->
  ResnetEncoder.init_probe config w <> (Ok (self, size), w1).
Proof.
  intros Hipt Hnot Hprobe.
  destruct (init_probe_Ok_inv _ _ _ _ _ Hprobe) as (z & _ & _ & _ & _ & Hz & _).
  rewrite Hipt in Hz. injection Hz as ->. now apply (Hnot z).
Qed.

End SquareAssertion.




(** ** Running the constructors forwards *)

Section RunForwards.

Context {A B : Type}.

Lemma bindM_Ok (c : M A) (k : A -> M B) (w w1 : world) (a : A) :
  c w = (Ok a, w1) -> (c ≫= k) w = k a w1.
Proof. intros Hc. unfold mbind, M_bind. now rewrite Hc. Qed.

Lemma bindM_Raise (c : M A) (k : A -> M B) (w w1 : world) (e : exn) :
  c w = (Raise e, w1) -> (c ≫= k) w = (Raise e, w1).
Proof. intros Hc. unfold mbind, M_bind. now rewrite Hc. Qed.

End RunForwards.

Lemma get_spatial_size_Ok `{Torch} (self : ResnetEncoder.t) (ipt : value)
    (s : nat) (y : tensor) (w : world) :
  as_dim ipt = Ok s ->
  ResnetEncoder.features self
    (Tensor [1; 3; s; s]%nat
       (map normal_stream (seq (rng_offset w) (numel [1; 3; s; s]%nat)))) = Ok y ->
  ResnetEncoder._get_spatial_size self ipt w
  = (Ok (shape y),
     {| cudnn_benchmark := cudnn_benchmark w;
        rng_offset := (rng_offset w + 3 * s * s)%nat;
        calls := calls w |}).
Proof.
  intros Hs Hy. unfold ResnetEncoder._get_spatial_size.
  rewrite (bindM_liftR_Ok _ _ _ _ Hs).
  unfold mbind at 1, M_bind at 1, randn, liftR. rewrite Hy.
  cbn [mbind result_bind mret result_ret]. do 3 f_equal.
  cbn [numel fold_right]. lia.
Qed.

(** With the reference collaborators the presets construct: the probe
    is 1 x 3 x 128 x 128, pooled to 1 x 1. *)
Lemma Reference_encoder_init_preset (norm : string) (nl : norm_layer)
    (act : bool) (w : world) :
  _norm_options !! norm = Some nl ->
  exists enc,
    @ResnetEncoder.init Reference.torch (BigAE.preset norm act) w
    = (Ok enc,
       {| cudnn_benchmark := cudnn_benchmark w;
          rng_offset := (rng_offset w + 3 * 128 * 128)%nat;
          calls := calls w ++ [CallResnet resnet101 (VBool false) nl] |}).
Proof.
  intros Hnorm.
  set (self0 := {| ResnetEncoder.config := BigAE.preset norm act;
                   ResnetEncoder.type_ := VStr "resnet101";
                   ResnetEncoder.z_dim := VInt 128;
                   ResnetEncoder.model := Reference.resnet;
                   ResnetEncoder.image_transform :=
                     ResnetEncoder.stack_normalized
                       (Normalize [0.485; 0.456; 0.406]%Q
                                  [0.229; 0.224; 0.225]%Q) |}).
  set (w1 := {| cudnn_benchmark := cudnn_benchmark w;
                rng_offset := rng_offset w;
                calls := calls w ++ [CallResnet resnet101 (VBool false) nl] |}).
  assert (Hfeat : forall x, shape x = [1; 3; 128; 128]%nat ->
            exists y, ResnetEncoder.features self0 x = Ok y /\
                      shape y = [1; 3; 1; 1]%nat).
  { intros x Hx. rewrite features_backbone.
    destruct (stack_normalized_Ok self0 0 128 128 x Hx) as (x' & Hx' & Hshape).
    unfold ResnetEncoder._pre_process. cbn [ResnetEncoder.image_transform self0].
    change (ResnetEncoder.mean self0) with [0.485; 0.456; 0.406]%Q in Hx'.
    change (ResnetEncoder.std self0) with [0.229; 0.224; 0.225]%Q in Hx'.
    rewrite Hx'. cbn [mbind result_bind ResnetEncoder.model self0].
    change (backbone Reference.resnet x') with (Reference.adaptive_avgpool x').
    unfold Reference.adaptive_avgpool. rewrite Hshape, Hx.
    eexists. split; reflexivity. }
  destruct (Hfeat (Tensor [1; 3; 128; 128]%nat
                     (map (@normal_stream Reference.torch)
                          (seq (rng_offset w1) (numel [1; 3; 128; 128]%nat))))
              eq_refl) as (y & Hy & Hshape).
  assert (Hprobe : @ResnetEncoder.init_probe Reference.torch
                     (BigAE.preset norm act) w
                   = (Ok (self0, [1; 3; 1; 1]%nat),
                      {| cudnn_benchmark := cudnn_benchmark w;
                         rng_offset := (rng_offset w + 3 * 128 * 128)%nat;
                         calls := calls w
                                  ++ [CallResnet resnet101 (VBool false) nl] |})).
  { unfold ResnetEncoder.init_probe.
    erewrite bindM_liftR_Ok by (vm_compute; reflexivity).
    erewrite bindM_liftR_Ok by (vm_compute; reflexivity).
    erewrite bindM_liftR_Ok by (vm_compute; reflexivity).
    erewrite bindM_liftR_Ok by (vm_compute; reflexivity).
    erewrite bindM_liftR_Ok by (vm_compute; reflexivity).
    erewrite bindM_liftR_Ok by (unfold dict_getitem; rewrite Hnorm; reflexivity).
    erewrite bindM_liftR_Ok by (vm_compute; reflexivity).
    erewrite (bindM_Ok (log _)) by reflexivity.
    erewrite bindM_liftR_Ok by reflexivity.
    cbv zeta.
    erewrite (bindM_Ok (ResnetEncoder._get_spatial_size _ _)).
    2:{ apply (get_spatial_size_Ok _ _ 128 y); [reflexivity | exact Hy]. }
    rewrite Hshape. reflexivity. }
  rewrite (init_after_probe _ _ _ _ _ Hprobe).
  generalize ({| cudnn_benchmark := cudnn_benchmark w;
                 rng_offset := (rng_offset w + 3 * 128 * 128)%nat;
                 calls := calls w ++ [CallResnet resnet101 (VBool false) nl] |}).
  intros w2. eexists. reflexivity.
Qed.

(** ** Global effects of BigAE.__init__ and of the factory *)

Section GlobalEffects.

Context `{Torch} `{Package}.

Lemma BigAE_init_sets_benchmark (config : value) (w : world) :
  cudnn_benchmark (snd (BigAE.init config w)) = true.
Proof.
  unfold BigAE.init.
  rewrite (bindM_Ok (BigAE.set_cudnn_benchmark true) _ w
             {| cudnn_benchmark := true; rng_offset := rng_offset w;
                calls := calls w |} tt eq_refl).
  match goal with
  | |- cudnn_benchmark (snd (?c ?w1)) = true =>
      assert (Hk : keeps_benchmark c); [|exact (Hk w1)]
  end.
  pose proof keeps_benchmark_encoder_init.
  pose proof keeps_benchmark_decoder_init.
  frame_steps.
Qed.


Lemma BigAE_init_rng (config : value) (w w' : world) (model : BigAE.t) :
  BigAE.init config w = (Ok model, w') ->
  exists z,
    retrieve config "Model/in_size" None = Ok (VInt z) /\ (0 <= z)%Z /\
    rng_offset w' = (rng_offset w + 3 * Z.to_nat z * Z.to_nat z)%nat.
Proof.
  unfold BigAE.init. intros Hrun.
  apply bindM_Ok_inv in Hrun as ([] & w1 & Hset & Hrun).
  unfold BigAE.set_cudnn_benchmark in Hset. injection Hset as <-.
  apply bindM_Ok_inv in Hrun as (det & w1 & Hdet & Hrun).
  apply liftR_Ok_inv in Hdet as [_ ->].
  apply bindM_Ok_inv in Hrun as (enc & w2 & Henc & Hrun).
  apply bindM_Ok_inv in Hrun as (dec & w3 & Hdec & Hrun).
  injection Hrun as _ <-.
  unfold ResnetEncoder.init in Henc.
  apply bindM_Ok_inv in Henc as ([self size] & w1' & Hprobe & Hhead).
  apply init_probe_Ok_inv in Hprobe
    as (z & _ & _ & _ & _ & Hz & Hz0 & _ & _ & _ & _ & Hrng & _).
  exists z. split; [exact Hz|]. split; [exact Hz0|].
  pose proof (keeps_rng_decoder_init config w2) as Hd.
  rewrite Hdec in Hd. cbn [snd] in Hd.
  pose proof (keeps_rng_encoder_init_head self size w1') as Hh.
  cbn [fst snd] in Hhead. rewrite Hhead in Hh. cbn [snd] in Hh.
  rewrite Hd, Hh, Hrng. reflexivity.
Qed.

Context `{BigAE.Checkpoints}.

Lemma from_pretrained_sets_benchmark (name : string) (w : world) :
  is_Some (BigAE.config_dict !! name) ->
  cudnn_benchmark (snd (BigAE.from_pretrained name w)) = true.
Proof.
  intros [cfg Hcfg]. unfold BigAE.from_pretrained. rewrite Hcfg.
  unfold mbind at 1, M_bind at 1.
  pose proof (BigAE_init_sets_benchmark cfg w) as Hinit.
  destruct (BigAE.init cfg w) as [[model|e] w1]; cbn [snd] in *;
    [|exact Hinit].
  rewrite <- Hinit.
  match goal with
  | |- cudnn_benchmark (snd (?c w1)) = _ =>
      assert (Hk : keeps_benchmark c); [|exact (Hk w1)]
  end.
  frame_steps.
Qed.

(** C9 (amended).  Every construction of a [BigAE], whether or not it
    then succeeds and whether direct or through the factory, leaves
    [torch.backends.cudnn.benchmark] set.  A construction that
    succeeds has also taken the [3 * z * z] entries of its probe input
    from torch's default random generator, [z] being the configured
    input size. *)
Theorem BigAE_init_global_effects (config : value) (w : world) :
  cudnn_benchmark (snd (BigAE.init config w)) = true /\
  (forall name, is_Some (BigAE.config_dict !! name) ->
     cudnn_benchmark (snd (BigAE.from_pretrained name w)) = true) /\
  (forall model w',
     BigAE.init config w = (Ok model, w') ->
     exists z,
       retrieve config "Model/in_size" None = Ok (VInt z) /\ (0 <= z)%Z /\
       rng_offset w' = (rng_offset w + 3 * Z.to_nat z * Z.to_nat z)%nat).
Proof.
  split; [apply BigAE_init_sets_benchmark|].
  split; [intros name; apply from_pretrained_sets_benchmark|].
  intros model w'. apply BigAE_init_rng.
Qed.

End GlobalEffects.

Lemma Reference_decoder_init_preset (norm : string) (act : bool) (w : world) :
  exists dec,
    @BigGANDecoderWrapper.init Reference.torch Reference.package
      (BigAE.preset norm act) w
    = (Ok dec,
       {| cudnn_benchmark := cudnn_benchmark w;
          rng_offset := rng_offset w;
          calls := calls w
                   ++ [CallGenerator (VInt 128) (VInt 128) (VBool false)
                         (VBool act) 1000] |}).
Proof.
  eexists. unfold BigGANDecoderWrapper.init.
  erewrite bindM_liftR_Ok by (vm_compute; reflexivity).
  erewrite bindM_liftR_Ok by (vm_compute; reflexivity).
  erewrite bindM_liftR_Ok by (vm_compute; reflexivity).
  erewrite bindM_liftR_Ok by (vm_compute; reflexivity).
  cbv zeta.
  erewrite bindM_liftR_Ok by (vm_compute; reflexivity).
  erewrite (bindM_Ok (log _)) by reflexivity.
  cbv beta.
  erewrite bindM_liftR_Ok by reflexivity.
  reflexivity.
Qed.

Lemma Reference_BigAE_init_preset (norm : string) (nl : norm_layer)
    (act : bool) (w : world) :
  _norm_options !! norm = Some nl ->
  exists model,
    @BigAE.init Reference.torch Reference.package (BigAE.preset norm act) w
    = (Ok model,
       {| cudnn_benchmark := true;
          rng_offset := (rng_offset w + 3 * 128 * 128)%nat;
          calls := (calls w ++ [CallResnet resnet101 (VBool false) nl])
                   ++ [CallGenerator (VInt 128) (VInt 128) (VBool false)
                         (VBool act) 1000] |}).
Proof.
  intros Hnorm.
  destruct (Reference_encoder_init_preset norm nl act
              {| cudnn_benchmark := true; rng_offset := rng_offset w;
                 calls := calls w |} Hnorm) as (enc & Henc).
  cbn [cudnn_benchmark rng_offset calls] in Henc.
  destruct (Reference_decoder_init_preset norm act
              {| cudnn_benchmark := true;
                 rng_offset := (rng_offset w + 3 * 128 * 128)%nat;
                 calls := calls w ++ [CallResnet resnet101 (VBool false) nl] |})
    as (dec & Hdec).
  cbn [cudnn_benchmark rng_offset calls] in Hdec.
  eexists. unfold BigAE.init.
  erewrite (bindM_Ok (BigAE.set_cudnn_benchmark true)) by reflexivity.
  cbv beta.
  erewrite bindM_liftR_Ok by (vm_compute; reflexivity).
  erewrite (bindM_Ok _ _ _ _ _ Henc). cbv beta.
  erewrite (bindM_Ok _ _ _ _ _ Hdec). cbv beta.
  reflexivity.
Qed.

(** The theorem on the "animals" preset with the reference
    collaborators. *)
Lemma BigAE_init_global_effects_witness :
  cudnn_benchmark
    (snd (@BigAE.init Reference.torch Reference.package
            (BigAE.preset "an" true) Reference.world0)) = true /\
  cudnn_benchmark
    (snd (@BigAE.from_pretrained Reference.torch Reference.package
            Reference.checkpoints "animals" Reference.world0)) = true /\
  exists z,
    retrieve (BigAE.preset "an" true) "Model/in_size" None = Ok (VInt z) /\
    (0 <= z)%Z /\
    (rng_offset Reference.world0 + 3 * 128 * 128
     = rng_offset Reference.world0 + 3 * Z.to_nat z * Z.to_nat z)%nat.
Proof.
  destruct (@BigAE_init_global_effects Reference.torch Reference.package
              Reference.checkpoints (BigAE.preset "an" true) Reference.world0)
    as (Hflag & Hfactory & Hrng).
  split; [exact Hflag|]. split.
  - apply Hfactory. vm_compute. eauto.
  - destruct (Reference_BigAE_init_preset "an" ActNorm true Reference.world0
                eq_refl) as (model & Hmodel).
    exact (Hrng _ _ Hmodel).
Defined.

(** C9 as stated: constructing the "animals" preset leaves the default
    random generator [3 * 128 * 128] samples further on. *)
Lemma BigAE_init_advances_rng :
  exists model w',
    @BigAE.init Reference.torch Reference.package
      (BigAE.preset "an" true) Reference.world0 = (Ok model, w') /\
    cudnn_benchmark w' = true /\
    rng_offset w' <> rng_offset Reference.world0.
Proof.
  destruct (Reference_BigAE_init_preset "an" ActNorm true Reference.world0
              eq_refl) as (model & Hmodel).
  eexists _, _. split; [exact Hmodel|]. split; [reflexivity|].
  cbn [rng_offset Reference.world0]. lia.
Qed.

(** ** The factory and its closed set of presets *)

Section Factory.

Context `{Torch} `{Package} `{BigAE.Checkpoints}.

Lemma calls_prefix_bind {A B} (c : M A) (k : A -> M B) (w : world)
    (ev : event) :
  (exists rest, calls (snd (c w)) = calls w ++ ev :: rest) ->
  (forall a, extends_calls (k a)) ->
  exists rest, calls (snd ((c ≫= k) w)) = calls w ++ ev :: rest.
Proof.
  intros [rest Hc] Hk. unfold mbind, M_bind.
  destruct (c w) as [[a|e] w1]; cbn [snd] in *.
  - destruct (Hk a w1) as [l Hl]. exists (rest ++ l).
    rewrite Hl, Hc, <- app_assoc. reflexivity.
  - eauto.
Qed.

Lemma calls_prefix_log {B} (k : unit -> M B) (w : world) (ev : event) :
  (forall a, extends_calls (k a)) ->
  exists rest, calls (snd ((log ev ≫= k) w)) = calls w ++ ev :: rest.
Proof.
  intros Hk. apply calls_prefix_bind; [|exact Hk].
  exists []. reflexivity.
Qed.

(** Constructing the encoder of a preset gets as far as asking
    torchvision for a ResNet-101 without pretrained weights. *)
Lemma preset_encoder_calls (norm : string) (nl : norm_layer) (act : bool)
    (w : world) :
  _norm_options !! norm = Some nl ->
  exists rest,
    calls (snd (ResnetEncoder.init (BigAE.preset norm act) w))
    = calls w ++ CallResnet resnet101 (VBool false) nl :: rest.
Proof.
  intros Hnorm. unfold ResnetEncoder.init. apply calls_prefix_bind.
  - unfold ResnetEncoder.init_probe.
    erewrite bindM_liftR_Ok by (vm_compute; reflexivity).
    erewrite bindM_liftR_Ok by (vm_compute; reflexivity).
    erewrite bindM_liftR_Ok by (vm_compute; reflexivity).
    erewrite bindM_liftR_Ok by (vm_compute; reflexivity).
    erewrite bindM_liftR_Ok by (vm_compute; reflexivity).
    erewrite bindM_liftR_Ok by (unfold dict_getitem; rewrite Hnorm; reflexivity).
    erewrite bindM_liftR_Ok by (vm_compute; reflexivity).
    apply calls_prefix_log. intros _.
    unfold ResnetEncoder._get_spatial_size. frame_steps.
  - intros probed. unfold ResnetEncoder.init_head. frame_steps.
Qed.

Lemma preset_init_calls (norm : string) (nl : norm_layer) (act : bool)
    (w : world) :
  _norm_options !! norm = Some nl ->
  exists rest,
    calls (snd (BigAE.init (BigAE.preset norm act) w))
    = calls w ++ CallResnet resnet101 (VBool false) nl :: rest.
Proof.
  intros Hnorm. unfold BigAE.init.
  erewrite (bindM_Ok (BigAE.set_cudnn_benchmark true)) by reflexivity.
  cbv beta.
  erewrite bindM_liftR_Ok by (vm_compute; reflexivity).
  apply (calls_prefix_bind
           (ResnetEncoder.init (BigAE.preset norm act)) _
           {| cudnn_benchmark := true; rng_offset := rng_offset w;
              calls := calls w |}).
  - now apply preset_encoder_calls.
  - intros enc. pose proof extends_calls_decoder_init. frame_steps.
Qed.

(** C4.  A name other than "animals" and "animalfaces" raises
    [NotImplementedError] with nothing done: the global state is the
    one the call found, so no model was constructed and no checkpoint
    was resolved or loaded.  For each of the two names the factory
    goes on to construct the model of that preset: the benchmark flag
    is set and torchvision is asked for its backbone. *)
Theorem BigAE_from_pretrained_closed_presets (name : string) (w : world) :
  (name <> "animals" -> name <> "animalfaces" ->
   BigAE.from_pretrained name w = (Raise (NotImplementedError name), w))
  /\
  (name = "animals" \/ name = "animalfaces" ->
   exists cfg nl rest,
     BigAE.config_dict !! name = Some cfg /\
     cudnn_benchmark (snd (BigAE.from_pretrained name w)) = true /\
     calls (snd (BigAE.from_pretrained name w))
     = calls w ++ CallResnet resnet101 (VBool false) nl :: rest).
Proof.
  split.
  - intros Ha Hf. unfold BigAE.from_pretrained, BigAE.config_dict.
    rewrite lookup_insert_ne by congruence.
    rewrite lookup_singleton_ne by congruence. reflexivity.
  - intros Hname.
    assert (Hcfg : exists norm nl act,
               BigAE.config_dict !! name = Some (BigAE.preset norm act) /\
               _norm_options !! norm = Some nl).
    { destruct Hname as [-> | ->].
      - exists "an", ActNorm, true. split; reflexivity.
      - exists "bn", BatchNorm2d, false. split; reflexivity. }
    destruct Hcfg as (norm & nl & act & Hcfg & Hnorm).
    assert (Hcalls : exists rest,
               calls (snd (BigAE.from_pretrained name w))
               = calls w ++ CallResnet resnet101 (VBool false) nl :: rest).
    { unfold BigAE.from_pretrained. rewrite Hcfg.
      apply calls_prefix_bind; [now apply preset_init_calls|].
      intros model. frame_steps. }
    destruct Hcalls as [rest Hcalls].
    exists (BigAE.preset norm act), nl, rest.
    split; [exact Hcfg|]. split; [|exact Hcalls].
    apply from_pretrained_sets_benchmark. rewrite Hcfg. eauto.
Qed.

End Factory.

(** The theorem on the name "unknown" and on "animals". *)
Lemma BigAE_from_pretrained_closed_presets_witness :
  @BigAE.from_pretrained Reference.torch Reference.package
    Reference.checkpoints "unknown" Reference.world0
  = (Raise (NotImplementedError "unknown"), Reference.world0)
  /\
  exists cfg nl rest,
    BigAE.config_dict !! "animals" = Some cfg /\
    cudnn_benchmark
      (snd (@BigAE.from_pretrained Reference.torch Reference.package
              Reference.checkpoints "animals" Reference.world0)) = true /\
    calls
      (snd (@BigAE.from_pretrained Reference.torch Reference.package
              Reference.checkpoints "animals" Reference.world0))
    = calls Reference.world0 ++ CallResnet resnet101 (VBool false) nl :: rest.
Proof.
  split.
  - apply (@BigAE_from_pretrained_closed_presets Reference.torch
             Reference.package Reference.checkpoints "unknown");
      discriminate.
  - apply (@BigAE_from_pretrained_closed_presets Reference.torch
             Reference.package Reference.checkpoints "animals").
    left. reflexivity.
Defined.

(** ** The normalization selector *)

Section NormOptions.

Context `{Torch}.

Lemma norm_options_lookup (tok : string) (nl : norm_layer) :
  _norm_options !! tok = Some nl <->
  (tok = "in" /\ nl = InstanceNorm2d) \/
  (tok = "bn" /\ nl = BatchNorm2d) \/
  (tok = "an" /\ nl = ActNorm).
Proof.
  unfold _norm_options. split.
  - intros Hl.
    destruct (decide (tok = "in")) as [->|Hin].
    { rewrite lookup_insert_eq in Hl. injection Hl as <-. auto. }
    rewrite lookup_insert_ne in Hl by congruence.
    destruct (decide (tok = "bn")) as [->|Hbn].
    { rewrite lookup_insert_eq in Hl. injection Hl as <-. auto. }
    rewrite lookup_insert_ne in Hl by congruence.
    destruct (decide (tok = "an")) as [->|Han].
    { rewrite lookup_singleton_eq in Hl. injection Hl as <-. auto. }
    rewrite lookup_singleton_ne in Hl by congruence. discriminate.
  - intros [[-> ->] | [[-> ->] | [-> ->]]]; reflexivity.
Qed.

(** C6.  [_norm_options] maps "in", "bn" and "an" to instance, batch
    and activation normalization and has no other key; constructing
    a [ResnetEncoder] whose configured token is any other string
    raises [KeyError] for that token, before any backbone is requested
    and with the global state untouched. *)
Theorem norm_options_closed (config : value) (w : world) (tok : string)
    (z_dim ipt_size load_pretrained : value) :
  (forall t nl,
     _norm_options !! t = Some nl <->
     (t = "in" /\ nl = InstanceNorm2d) \/
     (t = "bn" /\ nl = BatchNorm2d) \/
     (t = "an" /\ nl = ActNorm))
  /\
  (retrieve config "Model/z_dim" None = Ok z_dim ->
   retrieve config "Model/in_size" None = Ok ipt_size ->
   retrieve config "Model/pretrained" None = Ok load_pretrained ->
   retrieve config "Model/norm" None = Ok (VStr tok) ->
   tok <> "in" -> tok <> "bn" -> tok <> "an" ->
   ResnetEncoder.init config w = (Raise (KeyError (VStr tok)), w)).
Proof.
  split; [exact norm_options_lookup|].
  intros Hz Hipt Hlp Hnorm Hin Hbn Han.
  assert (Hnone : _norm_options !! tok = None).
  { destruct (_norm_options !! tok) as [nl|] eqn:Hl; [|reflexivity].
    apply norm_options_lookup in Hl. intuition congruence. }
  unfold ResnetEncoder.init. apply bindM_Raise.
  unfold ResnetEncoder.init_probe.
  rewrite (bindM_liftR_Ok _ _ _ _ Hz).
  rewrite (bindM_liftR_Ok _ _ _ _ Hipt).
  assert (Hty : exists ty,
             retrieve config "Model/type" (Some (VStr "resnet50")) = Ok ty).
  { unfold retrieve. destruct (walk config _); eauto. }
  destruct Hty as [ty Hty].
  rewrite (bindM_liftR_Ok _ _ _ _ Hty).
  rewrite (bindM_liftR_Ok _ _ _ _ Hlp).
  rewrite (bindM_liftR_Ok _ _ _ _ Hnorm).
  apply bindM_liftR_Raise. unfold dict_getitem. now rewrite Hnone.
Qed.

End NormOptions.

(** The theorem on the token "gn". *)
Lemma norm_options_closed_witness :
  (_norm_options !! "bn" = Some BatchNorm2d <->
   ("bn" = "in" /\ BatchNorm2d = InstanceNorm2d) \/
   ("bn" = "bn" /\ BatchNorm2d = BatchNorm2d) \/
   ("bn" = "an" /\ BatchNorm2d = ActNorm))
  /\
  @ResnetEncoder.init Reference.torch
    (Reference.small_config (VStr "gn") (VInt 2)) Reference.world0
  = (Raise (KeyError (VStr "gn")), Reference.world0).
Proof.
  destruct (@norm_options_closed Reference.torch
              (Reference.small_config (VStr "gn") (VInt 2)) Reference.world0
              "gn" (VInt 2) (VInt 2) (VBool false)) as [Hmap Hraise].
  split; [apply Hmap|].
  apply Hraise; solve [vm_compute; reflexivity | discriminate].
Defined.

(** ** DenseEncoderLayer *)

Section DenseEncoderLayerFacts.





End DenseEncoderLayerFacts.


(** ** BigAE.encode with the determinism flag set *)

Section DeterministicEncode.

Context `{Torch} `{Package}.

Lemma half_dim1_Ok (part : nat) (x : tensor) (d0 d1 : nat) (rest : list nat) :
  shape x = d0 :: d1 :: rest -> Nat.even d1 = true ->
  exists y,
    DiagonalGaussianDistribution.half_dim1 part x = Ok y /\
    shape y = d0 :: (d1 / 2)%nat :: rest.
Proof.
  intros Hx Heven. unfold DiagonalGaussianDistribution.half_dim1.
  rewrite Hx, Heven. eexists. split; reflexivity.
Qed.

(** C3.  When the model's determinism flag is set and the encoder
    returns an encoding with an even number of channels, [encode]
    returns a distribution whose mean is the first half of the
    encoding, whose log-variance is the canonical degenerate value
    everywhere, and whose sampling operation returns exactly that mean
    from every state of the random generator, leaving the generator
    where it was. *)
Theorem BigAE_encode_deterministic
    (self : BigAE.t) (x h : tensor) (d0 d1 : nat) (rest : list nat) :
  truthy (BigAE.be_deterministic self) = true ->
  ResnetEncoder.forward (BigAE.encoder self) x = Ok h ->
  shape h = d0 :: d1 :: rest -> Nat.even d1 = true ->
  exists d,
    BigAE.encode self x = Ok d /\
    DiagonalGaussianDistribution.half_dim1 0 h
    = Ok (DiagonalGaussianDistribution.mean d) /\
    DiagonalGaussianDistribution.logvar d
    = full (shape (DiagonalGaussianDistribution.mean d)) degenerate_logvar /\
    forall w,
      DiagonalGaussianDistribution.sample d w
      = (Ok (DiagonalGaussianDistribution.mean d), w).
Proof.
  intros Hdet Hh Hshape Heven. unfold BigAE.encode. rewrite Hh.
  cbn [mbind result_bind]. unfold DiagonalGaussianDistribution.init.
  destruct (half_dim1_Ok 0 h d0 d1 rest Hshape Heven) as (m & Hm & _).
  destruct (half_dim1_Ok 1 h d0 d1 rest Hshape Heven) as (lv & Hlv & _).
  rewrite Hm, Hlv, Hdet. cbn [mbind result_bind mret result_ret].
  eexists. split; [reflexivity|].
  cbn [DiagonalGaussianDistribution.mean DiagonalGaussianDistribution.logvar].
  split; [reflexivity|]. split; [reflexivity|].
  intros w. reflexivity.
Qed.

End DeterministicEncode.

(** The theorem on a model with identity preprocessing, backbone and
    head, and a 1 x 2 x 1 x 1 input. *)
Lemma BigAE_encode_deterministic_witness :
  exists d,
    @BigAE.encode Reference.torch Reference.package
      Reference.deterministic_model (Tensor [1; 2; 1; 1]%nat [1%R; 2%R]) = Ok d /\
    DiagonalGaussianDistribution.half_dim1 0 (Tensor [1; 2; 1; 1]%nat [1%R; 2%R])
    = Ok (DiagonalGaussianDistribution.mean d) /\
    DiagonalGaussianDistribution.logvar d
    = full (shape (DiagonalGaussianDistribution.mean d))
           (@degenerate_logvar Reference.package) /\
    forall w,
      @DiagonalGaussianDistribution.sample Reference.torch d w
      = (Ok (DiagonalGaussianDistribution.mean d), w).
Proof.
  apply (@BigAE_encode_deterministic Reference.torch Reference.package
           Reference.deterministic_model (Tensor [1; 2; 1; 1]%nat [1%R; 2%R])
           (Tensor [1; 2; 1; 1]%nat [1%R; 2%R]) 1 2 [1; 1]%nat);
    reflexivity.
Defined.

(** ** BigGANDecoderWrapper.forward *)

(** C8.  Whatever is passed as [labels], of whatever type, the result is
    the same: the generator applied to the latent and to the class
    embedding computed from the latent. *)
Theorem BigGANDecoderWrapper_forward_ignores_labels
    {L1 L2 : Type} (self : BigGANDecoderWrapper.t) (x : tensor)
    (labels1 : option L1) (labels2 : option L2) :
  BigGANDecoderWrapper.forward self x labels1
  = BigGANDecoderWrapper.forward self x labels2
  /\
  BigGANDecoderWrapper.forward self x labels1
  = (emb ← ClassUp.forward (BigGANDecoderWrapper.map_to_class_embedding self) x;
     generate (BigGANDecoderWrapper.decoder self) x emb).
Proof.
  split; [reflexivity|]. unfold BigGANDecoderWrapper.forward.
  destruct (ClassUp.forward _ x) as [emb|]; [|reflexivity].
  cbn [mbind result_bind mret result_ret].
  now destruct (generate _ x emb).
Qed.

(** ** The constant properties of ResnetEncoder *)

(** C10.  For every encoder, whatever it was configured with, [mean],
    [std] and [input_size] are the ImageNet constants; in particular
    [input_size] is [3, 224, 224] for an encoder configured with input
    size 128. *)
Theorem ResnetEncoder_properties_constant (self : ResnetEncoder.t) :
  ResnetEncoder.mean self = [0.485; 0.456; 0.406]%Q /\
  ResnetEncoder.std self = [0.229; 0.224; 0.225]%Q /\
  ResnetEncoder.input_size self = [3; 224; 224]%Z /\
  (retrieve (ResnetEncoder.config self) "Model/in_size" None = Ok (VInt 128) ->
   ResnetEncoder.input_size self = [3; 224; 224]%Z).
Proof. repeat split. Qed.

(** The theorem on an encoder that carries the "animals" preset. *)
Lemma ResnetEncoder_properties_constant_witness :
  ResnetEncoder.input_size
    {| ResnetEncoder.config := BigAE.preset "an" true;
       ResnetEncoder.type_ := VStr "resnet101";
       ResnetEncoder.z_dim := VInt 128;
       ResnetEncoder.model := Reference.resnet;
       ResnetEncoder.image_transform := Ok |}
  = [3; 224; 224]%Z.
Proof.
  apply (ResnetEncoder_properties_constant
           {| ResnetEncoder.config := BigAE.preset "an" true;
              ResnetEncoder.type_ := VStr "resnet101";
              ResnetEncoder.z_dim := VInt 128;
              ResnetEncoder.model := Reference.resnet;
              ResnetEncoder.image_transform := Ok |}).
  vm_compute. reflexivity.
Defined.

(** * Further properties of the code *)

(** ** ClassUp: the layer stack and the inputs it accepts *)

Section ClassUpMore.

Local Open Scope R_scope.

Lemma fold_left_append_blocks {A} (f : nat -> list A) (l : list nat)
    (acc : list A) :
  fold_left (fun layers d => layers ++ f d) l acc = acc ++ flat_map f l.
Proof.
  revert acc. induction l as [|d l IH]; intros acc; simpl.
  - now rewrite app_nil_r.
  - rewrite IH. now rewrite <- app_assoc.
Qed.

Lemma ClassUp_main_closed_form (params : nat -> LinearParams)
    (dim depth hidden_dim : nat) (use_sigmoid : bool) (out_dim : option nat) :
  ClassUp.main (ClassUp.init params dim depth hidden_dim use_sigmoid out_dim)
  = [Linear dim hidden_dim (params 0%nat); LeakyReLU]
    ++ flat_map (fun d => [Linear hidden_dim hidden_dim (params (S d)); LeakyReLU])
                (seq 0 depth)
    ++ [Linear hidden_dim (out_width dim out_dim) (params (S depth))]
    ++ (if use_sigmoid then [Sigmoid] else []).
Proof.
  unfold ClassUp.init. cbn [ClassUp.main].
  rewrite fold_left_append_blocks.
  destruct use_sigmoid; rewrite <- ?app_assoc; [reflexivity|].
  now rewrite app_nil_r.
Qed.

(** X1.  The stack built by [ClassUp.__init__] is the input block, then
    [depth] hidden blocks, then the output projection and, only when
    asked for, a sigmoid: [2 * depth + 3] layers (one more with the
    sigmoid), of which [depth + 2] are linear, the [k]-th created
    carrying the [k]-th parameter set. *)
Theorem ClassUp_init_layers (params : nat -> LinearParams)
    (dim depth hidden_dim : nat) (use_sigmoid : bool) (out_dim : option nat) :
  ClassUp.main (ClassUp.init params dim depth hidden_dim use_sigmoid out_dim)
  = [Linear dim hidden_dim (params 0%nat); LeakyReLU]
    ++ flat_map (fun d => [Linear hidden_dim hidden_dim (params (S d)); LeakyReLU])
                (seq 0 depth)
    ++ [Linear hidden_dim (out_width dim out_dim) (params (S depth))]
    ++ (if use_sigmoid then [Sigmoid] else [])
  /\
  length (ClassUp.main
            (ClassUp.init params dim depth hidden_dim use_sigmoid out_dim))
  = (2 * depth + 3 + (if use_sigmoid then 1 else 0))%nat
  /\
  length (List.filter is_Linear
            (ClassUp.main
               (ClassUp.init params dim depth hidden_dim use_sigmoid out_dim)))
  = (depth + 2)%nat.
Proof.
  rewrite ClassUp_main_closed_form. split; [reflexivity|].
  assert (Hlen : forall s n,
             length (flat_map (fun d => [Linear hidden_dim hidden_dim (params (S d));
                                         LeakyReLU]) (seq s n)) = (2 * n)%nat).
  { intros s n. revert s. induction n as [|n IH]; intros s; simpl; [reflexivity|].
    rewrite IH. lia. }
  assert (Hlin : forall s n,
             length (List.filter is_Linear
                       (flat_map (fun d => [Linear hidden_dim hidden_dim (params (S d));
                                            LeakyReLU]) (seq s n))) = n).
  { intros s n. revert s. induction n as [|n IH]; intros s; simpl; [reflexivity|].
    now rewrite IH. }
  split.
  - cbn [app length]. rewrite !length_app, Hlen.
    destruct use_sigmoid; simpl; lia.
  - cbn [app List.filter is_Linear length].
    rewrite !List.filter_app, !length_app, Hlin.
    destruct use_sigmoid; simpl; lia.
Qed.

(** X2.  Up to two trailing singleton axes make no difference: on a
    latent axis of at least two entries, any [ClassUp] gives on a
    [B x dim x 1 x 1] (or [B x dim x 1]) input exactly what it gives on
    the same data shaped [B x dim]. *)
Theorem ClassUp_forward_trailing_singletons (self : ClassUp.t)
    (B dim k : nat) (entries : list R) :
  (2 <= dim)%nat -> (k <= 2)%nat ->
  ClassUp.forward self (Tensor (B :: dim :: repeat 1%nat k) entries)
  = ClassUp.forward self (Tensor [B; dim] entries).
Proof.
  intros Hdim Hk. unfold ClassUp.forward.
  assert (Hsq : forall j, (j <= 2)%nat ->
            squeeze_last (squeeze_last (Tensor (B :: dim :: repeat 1%nat j) entries))
            = Tensor [B; dim] entries).
  { intros j Hj. destruct dim as [|[|d]]; [lia | lia |].
    destruct j as [|[|[|j]]]; [| | |lia]; reflexivity. }
  rewrite (Hsq k Hk). specialize (Hsq 0%nat). cbn [repeat] in Hsq.
  now rewrite Hsq by lia.
Qed.

Lemma ClassUp_forward_trailing_singletons_witness :
  ClassUp.forward (ClassUp.init (fun _ => Reference.zero_linear) 2 1 3 false None)
    (Tensor [1; 2; 1; 1]%nat [1; -1])
  = ClassUp.forward (ClassUp.init (fun _ => Reference.zero_linear) 2 1 3 false None)
      (Tensor [1; 2]%nat [1; -1]).
Proof.
  apply (ClassUp_forward_trailing_singletons _ 1 2 2 [1; -1]); lia.
Defined.

Lemma Linear_forward_shape_lead (lead : list nat) (n m : nat)
    (p : LinearParams) (x : tensor) :
  shape x = lead ++ [n] ->
  exists y, Linear_forward n m p x = Ok y /\ shape y = lead ++ [m].
Proof.
  intros Hx. unfold Linear_forward. rewrite Hx, rev_app_distr. simpl.
  rewrite Nat.eqb_refl, rev_involutive. eexists; split; reflexivity.
Qed.

Lemma maps_shape_Linear_lead (lead : list nat) (n m : nat) (p : LinearParams) :
  maps_shape [Linear n m p] (lead ++ [n]) (lead ++ [m]).
Proof.
  intros x Hx. simpl.
  destruct (Linear_forward_shape_lead lead n m p x Hx) as (y & -> & Hy).
  simpl. eauto.
Qed.

Lemma maps_shape_flat_map (lead : list nat) (h : nat)
    (params : nat -> LinearParams) (l : list nat) :
  maps_shape
    (flat_map (fun d => [Linear h h (params (S d)); LeakyReLU]) l)
    (lead ++ [h]) (lead ++ [h]).
Proof.
  induction l as [|d l IH]; simpl.
  - intros x Hx. eauto.
  - apply (maps_shape_app [Linear h h (params (S d))] _ _ (lead ++ [h])).
    + apply maps_shape_Linear_lead.
    + apply (maps_shape_app [LeakyReLU] _ _ (lead ++ [h]));
        [apply maps_shape_LeakyReLU | exact IH].
Qed.

(** Whatever the leading axes, the stack maps a last axis of [dim]
    entries to one of [out_width] entries. *)
Lemma ClassUp_main_shape_lead (params : nat -> LinearParams)
    (dim depth hidden_dim : nat) (use_sigmoid : bool) (out_dim : option nat)
    (lead : list nat) :
  maps_shape
    (ClassUp.main (ClassUp.init params dim depth hidden_dim use_sigmoid out_dim))
    (lead ++ [dim]) (lead ++ [out_width dim out_dim]).
Proof.
  rewrite ClassUp_main_closed_form.
  apply (maps_shape_app _ _ _ (lead ++ [hidden_dim])).
  { apply (maps_shape_app [Linear dim hidden_dim (params 0%nat)] [LeakyReLU]
             _ (lead ++ [hidden_dim]));
      [apply maps_shape_Linear_lead | apply maps_shape_LeakyReLU]. }
  apply (maps_shape_app _ _ _ (lead ++ [hidden_dim]));
    [apply maps_shape_flat_map|].
  apply (maps_shape_app _ _ _ (lead ++ [out_width dim out_dim]));
    [apply maps_shape_Linear_lead|].
  destruct use_sigmoid; [apply maps_shape_Sigmoid|].
  intros x Hx. eauto.
Qed.

(** X3.  Two ways in which [ClassUp.forward] rejects its input.  A
    latent without a batch axis, of shape [(dim,)], passes through the
    layers and is then refused by the softmax along dim 1 with an
    [IndexError].  A batch whose last axis has a size other than [dim]
    (and other than one) is refused by the first linear layer with a
    [RuntimeError]. *)
Theorem ClassUp_forward_rejects (params : nat -> LinearParams)
    (dim depth hidden_dim : nat) (use_sigmoid : bool) (out_dim : option nat)
    (x : tensor) :
  ((2 <= dim)%nat -> shape x = [dim] ->
   ClassUp.forward
     (ClassUp.init params dim depth hidden_dim use_sigmoid out_dim) x
   = Raise IndexError)
  /\
  (forall lead n, shape x = lead ++ [n] -> n <> dim -> n <> 1%nat ->
   ClassUp.forward
     (ClassUp.init params dim depth hidden_dim use_sigmoid out_dim) x
   = Raise RuntimeError).
Proof.
  split.
  - intros Hdim Hx. unfold ClassUp.forward.
    assert (Hsq : squeeze_last (squeeze_last x) = x).
    { destruct x as [s d]. simpl in Hx. subst s.
      destruct dim as [|[|n]]; [lia | lia | reflexivity]. }
    rewrite Hsq.
    destruct (ClassUp_main_shape_lead params dim depth hidden_dim use_sigmoid
                out_dim [] x Hx) as (y & -> & Hy).
    cbn [mbind result_bind]. unfold softmax_dim1. now rewrite Hy.
  - intros lead n Hx Hn Hn1. unfold ClassUp.forward.
    assert (Hsq : squeeze_last (squeeze_last x) = x).
    { assert (H1 : squeeze_last x = x).
      { unfold squeeze_last. rewrite Hx, rev_app_distr. simpl.
        destruct n as [|[|n]]; [reflexivity | congruence | reflexivity]. }
      now rewrite H1, H1. }
    rewrite Hsq, ClassUp_main_closed_form. cbn [app Sequential_forward Layer_forward].
    unfold Linear_forward. rewrite Hx, rev_app_distr. simpl.
    destruct (Nat.eqb_spec n dim) as [Heq|_]; [contradiction | reflexivity].
Qed.

Lemma ClassUp_forward_rejects_witness :
  ClassUp.forward (ClassUp.init (fun _ => Reference.zero_linear) 2 1 3 false None)
    (Tensor [2]%nat [1; -1]) = Raise IndexError
  /\
  ClassUp.forward (ClassUp.init (fun _ => Reference.zero_linear) 2 1 3 false None)
    (Tensor [1; 3]%nat [1; -1; 0]) = Raise RuntimeError.
Proof.
  destruct (ClassUp_forward_rejects (fun _ => Reference.zero_linear) 2 1 3 false
              None (Tensor [2]%nat [1; -1])) as [Hindex _].
  destruct (ClassUp_forward_rejects (fun _ => Reference.zero_linear) 2 1 3 false
              None (Tensor [1; 3]%nat [1; -1; 0])) as [_ Hruntime].
  split.
  - apply Hindex; [lia | reflexivity].
  - apply (Hruntime [1%nat] 3%nat); [reflexivity | lia | lia].
Defined.

End ClassUpMore.

(** ** BigGANDecoderWrapper: construction and the embedding it feeds *)

Section WrapperMore.

Context `{Torch} `{Package}.

Local Open Scope R_scope.

Lemma retrieve_default_absent (config : value) (key : string) (e : exn)
    (d : value) :
  retrieve config key None = Raise e -> retrieve config key (Some d) = Ok d.
Proof. unfold retrieve. destruct (walk config _); [discriminate | reflexivity]. Qed.

Lemma retrieve_default_present (config : value) (key : string) (v d : value) :
  retrieve config key None = Ok v -> retrieve config key (Some d) = Ok v.
Proof. unfold retrieve. destruct (walk config _); [auto | discriminate]. Qed.

Lemma retrieve_absent (config : value) (key : string) :
  walk config (split_slash key) = None ->
  retrieve config key None = Raise (KeyNotFoundError key).
Proof. unfold retrieve. now intros ->. Qed.

Lemma retrieve_with_default_Ok (config : value) (key : string) (d : value) :
  exists v, retrieve config key (Some d) = Ok v.
Proof. unfold retrieve. destruct (walk config _); eauto. Qed.



Lemma wrapper_init_Ok_inv (config : value) (w w' : world)
    (self : BigGANDecoderWrapper.t) :
  BigGANDecoderWrapper.init config w = (Ok self, w') ->
  exists z,
    retrieve config "Model/z_dim" None = Ok (VInt z) /\ (0 <= z)%Z /\
    BigGANDecoderWrapper.map_to_class_embedding self
    = ClassUp.init linear_parameters (Z.to_nat z) 2 2000 false (Some 1000%nat).
Proof.
  unfold BigGANDecoderWrapper.init. intros Hrun.
  apply bindM_Ok_inv in Hrun as (zv & w1 & Hzv & Hrun).
  apply liftR_Ok_inv in Hzv as [Hzv ->].
  apply bindM_Ok_inv in Hrun as (v1 & w1 & H1 & Hrun).
  apply liftR_Ok_inv in H1 as [_ ->].
  apply bindM_Ok_inv in Hrun as (v2 & w1 & H2 & Hrun).
  apply liftR_Ok_inv in H2 as [_ ->].
  apply bindM_Ok_inv in Hrun as (v3 & w1 & H3 & Hrun).
  apply liftR_Ok_inv in H3 as [_ ->].
  cbv zeta in Hrun.
  apply bindM_Ok_inv in Hrun as (dim & w1 & Hdim & Hrun).
  apply liftR_Ok_inv in Hdim as [Hdim ->].
  apply bindM_Ok_inv in Hrun as ([] & w1 & _ & Hrun).
  apply bindM_Ok_inv in Hrun as (dec & w2 & _ & Hrun).
  injection Hrun as <- _.
  apply as_dim_Ok_inv in Hdim as (z & -> & Hz & ->).
  exists z. auto.
Qed.




End WrapperMore.




(** ** BigAE: construction, decoding and the factory's loading steps *)

Section ModelMore.

Context `{Torch} `{Package}.

Lemma BigAE_init_Ok_inv (config : value) (w w' : world) (model : BigAE.t) :
  BigAE.init config w = (Ok model, w') ->
  exists w2,
    ResnetEncoder.init config
      {| cudnn_benchmark := true; rng_offset := rng_offset w; calls := calls w |}
    = (Ok (BigAE.encoder model), w2) /\
    BigGANDecoderWrapper.init config w2 = (Ok (BigAE.decoder model), w') /\
    retrieve config "Model/deterministic" (Some (VBool false))
    = Ok (BigAE.be_deterministic model) /\
    BigAE.training model = true.
Proof.
  unfold BigAE.init. intros Hrun.
  apply bindM_Ok_inv in Hrun as ([] & w1 & Hset & Hrun).
  unfold BigAE.set_cudnn_benchmark in Hset. injection Hset as <-.
  apply bindM_Ok_inv in Hrun as (det & w1 & Hdet & Hrun).
  apply liftR_Ok_inv in Hdet as [Hdet ->].
  apply bindM_Ok_inv in Hrun as (enc & w2 & Henc & Hrun).
  apply bindM_Ok_inv in Hrun as (dec & w3 & Hdec & Hrun).
  injection Hrun as <- <-. exists w2. auto.
Qed.

(** X7.  [decode] drops up to two trailing singleton axes before the
    decoder sees the latent: on a latent axis of at least two entries,
    decoding a [B x z x 1 x 1] (or [B x z x 1]) latent is the decoder
    wrapper run on the same data shaped [B x z]. *)
Theorem BigAE_decode_trailing_singletons (self : BigAE.t)
    (B z k : nat) (entries : list R) :
  (2 <= z)%nat -> (k <= 2)%nat ->
  BigAE.decode self (Tensor (B :: z :: repeat 1%nat k) entries)
  = BigGANDecoderWrapper.forward (BigAE.decoder self) (Tensor [B; z] entries)
      (@None tensor).
Proof.
  intros Hz Hk. unfold BigAE.decode.
  destruct z as [|[|z]]; [lia | lia |].
  destruct k as [|[|[|k]]]; [| | |lia]; reflexivity.
Qed.

(** X8.  A model configured with a latent size of one cannot decode.
    Its latent axis is itself a singleton, so the squeezes of [decode]
    and of [ClassUp.forward] remove it, and the first linear layer
    raises a [RuntimeError] for every latent of shape [B x 1],
    [B x 1 x 1] or [B x 1 x 1 x 1]. *)
Theorem BigAE_decode_unit_latent_raises (config : value) (w w' : world)
    (model : BigAE.t) (B k : nat) (entries : list R) :
  BigAE.init config w = (Ok model, w') ->
  retrieve config "Model/z_dim" None = Ok (VInt 1) ->
  (k <= 2)%nat ->
  BigAE.decode model (Tensor (B :: 1%nat :: repeat 1%nat k) entries)
  = Raise RuntimeError.
Proof.
  intros Hinit Hz Hk.
  destruct (BigAE_init_Ok_inv _ _ _ _ Hinit) as (w2 & _ & Hdec & _).
  destruct (wrapper_init_Ok_inv _ _ _ _ Hdec) as (z & Hz' & _ & Hmap).
  rewrite Hz in Hz'. injection Hz' as <-.
  unfold BigAE.decode, BigGANDecoderWrapper.forward, ClassUp.forward.
  rewrite Hmap, ClassUp_main_closed_form.
  cbn [app Sequential_forward Layer_forward].
  set (first := Linear_forward _ _ _ _).
  assert (Hfirst : first = Raise RuntimeError).
  { unfold first, Linear_forward.
    destruct k as [|[|[|k]]]; [| | |lia];
      destruct B as [|[|B]]; reflexivity. }
  now rewrite Hfirst.
Qed.

(** X9.  What direct construction leaves behind: the model is in
    training mode, and its determinism flag is the configured
    [Model/deterministic], [False] when the configuration has none. *)
Theorem BigAE_init_flags (config : value) (w w' : world) (model : BigAE.t) :
  BigAE.init config w = (Ok model, w') ->
  BigAE.training model = true /\
  retrieve config "Model/deterministic" (Some (VBool false))
  = Ok (BigAE.be_deterministic model) /\
  (walk config (split_slash "Model/deterministic") = None ->
   BigAE.be_deterministic model = VBool false).
Proof.
  intros Hinit.
  destruct (BigAE_init_Ok_inv _ _ _ _ Hinit) as (w2 & _ & _ & Hdet & Htrain).
  split; [exact Htrain|]. split; [exact Hdet|].
  intros Habsent. unfold retrieve in Hdet. rewrite Habsent in Hdet.
  now injection Hdet.
Qed.

End ModelMore.

(** ** Which collaborators a construction reaches *)

Section CallsMore.

Context `{Torch} `{Package}.

Lemma keeps_calls_bind {A B} (c : M A) (k : A -> M B) :
  keeps_calls c -> (forall a, keeps_calls (k a)) -> keeps_calls (c ≫= k).
Proof.
  intros Hc Hk w. unfold mbind, M_bind.
  specialize (Hc w). destruct (c w) as [[a|e] w1]; simpl in *.
  - now rewrite Hk.
  - exact Hc.
Qed.

Lemma keeps_calls_liftR {A} (r : result A) : keeps_calls (liftR r).
Proof. intros w. reflexivity. Qed.

Lemma keeps_calls_mret {A} (a : A) : keeps_calls (mret a).
Proof. intros w. reflexivity. Qed.

Lemma keeps_calls_raiseM {A} (e : exn) : keeps_calls (@raiseM A e).
Proof. intros w. reflexivity. Qed.

Lemma keeps_calls_randn (size : list nat) : keeps_calls (randn size).
Proof. intros w. reflexivity. Qed.

Lemma keeps_calls_get_spatial_size (self : ResnetEncoder.t) (ipt : value) :
  keeps_calls (ResnetEncoder._get_spatial_size self ipt).
Proof.
  unfold ResnetEncoder._get_spatial_size.
  apply keeps_calls_bind; [apply keeps_calls_liftR | intros s].
  apply keeps_calls_bind; [apply keeps_calls_randn | intros x].
  apply keeps_calls_liftR.
Qed.

Lemma keeps_calls_init_head (self : ResnetEncoder.t) (size : list nat) :
  keeps_calls (ResnetEncoder.init_head self size).
Proof.
  unfold ResnetEncoder.init_head.
  apply keeps_calls_bind; [apply keeps_calls_liftR | intros h].
  apply keeps_calls_bind; [apply keeps_calls_liftR | intros w'].
  destruct (negb _); [apply keeps_calls_raiseM|].
  cbv zeta.
  apply keeps_calls_bind; [apply keeps_calls_liftR | intros c].
  apply keeps_calls_bind; [apply keeps_calls_liftR | intros z].
  apply keeps_calls_bind; [apply keeps_calls_liftR | intros head].
  apply keeps_calls_mret.
Qed.

(** One [liftR] step of a computation whose outcome is being classified:
    on [Raise] the first alternative holds with the state untouched. *)
Ltac step_or_stop :=
  match goal with
  | |- context [(liftR ?r ≫= ?k) ?w] =>
      let v := fresh "v" in
      let e := fresh "e" in
      destruct r as [v|e];
      [ rewrite (bindM_liftR_Ok (Ok v) v k w eq_refl)
      | left; exists e; reflexivity ]
  end.

Lemma init_probe_calls (config : value) (w : world) :
  (exists e, ResnetEncoder.init_probe config w = (Raise e, w)) \/
  (exists kind p n,
     calls (snd (ResnetEncoder.init_probe config w))
     = calls w ++ [CallResnet kind p n]).
Proof.
  unfold ResnetEncoder.init_probe.
  do 7 step_or_stop.
  right. eexists _, _, _.
  erewrite (bindM_Ok (log _)) by reflexivity. cbv beta.
  match goal with
  | |- calls (snd (?c ?w1)) = _ =>
      assert (Hk : keeps_calls c); [|exact (Hk w1)]
  end.
  apply keeps_calls_bind; [apply keeps_calls_liftR | intros m].
  cbv zeta.
  apply keeps_calls_bind; [apply keeps_calls_get_spatial_size | intros sz].
  apply keeps_calls_mret.
Qed.

Lemma encoder_init_calls (config : value) (w : world) :
  (exists e, ResnetEncoder.init config w = (Raise e, w)) \/
  (exists kind p n,
     calls (snd (ResnetEncoder.init config w))
     = calls w ++ [CallResnet kind p n]).
Proof.
  unfold ResnetEncoder.init.
  destruct (init_probe_calls config w) as [[e He] | (kind & p & n & Hc)].
  - left. exists e. now apply bindM_Raise.
  - right. exists kind, p, n. unfold mbind, M_bind.
    destruct (ResnetEncoder.init_probe config w) as [[[self size]|e] w1];
      cbn [snd fst] in *; [|exact Hc].
    rewrite keeps_calls_init_head. exact Hc.
Qed.

Lemma wrapper_init_calls (config : value) (w : world) :
  (exists e, BigGANDecoderWrapper.init config w = (Raise e, w)) \/
  (exists a b c d n,
     calls (snd (BigGANDecoderWrapper.init config w))
     = calls w ++ [CallGenerator a b c d n]).
Proof.
  unfold BigGANDecoderWrapper.init.
  do 4 step_or_stop. cbv zeta. step_or_stop.
  right. eexists _, _, _, _, _.
  erewrite (bindM_Ok (log _)) by reflexivity. cbv beta.
  match goal with
  | |- calls (snd (?c ?w1)) = _ =>
      assert (Hk : keeps_calls c); [|exact (Hk w1)]
  end.
  apply keeps_calls_bind; [apply keeps_calls_liftR | intros dec].
  apply keeps_calls_mret.
Qed.

(** X10.  Constructing an encoder reaches outside the process at most
    once, to ask torchvision for the backbone, and not at all when a
    configuration lookup fails first; constructing the decoder wrapper
    likewise requests the generator at most once, and not at all when
    the latent size is unusable. *)
Theorem constructors_reach_one_collaborator (config : value) (w : world) :
  ((exists e, ResnetEncoder.init config w = (Raise e, w)) \/
   (exists kind p n,
      calls (snd (ResnetEncoder.init config w))
      = calls w ++ [CallResnet kind p n]))
  /\
  ((exists e, BigGANDecoderWrapper.init config w = (Raise e, w)) \/
   (exists a b c d n,
      calls (snd (BigGANDecoderWrapper.init config w))
      = calls w ++ [CallGenerator a b c d n])).
Proof. split; [apply encoder_init_calls | apply wrapper_init_calls]. Qed.

(** X11.  The decoder is built only after the encoder.  When the
    construction of the encoder raises, [BigAE.__init__] raises the same
    exception with the benchmark flag already set, and the only
    collaborator it can have reached is torchvision: the generator has
    not been requested. *)
Theorem BigAE_init_encoder_failure (config : value) (w w1 : world) (e : exn) :
  ResnetEncoder.init config
    {| cudnn_benchmark := true; rng_offset := rng_offset w; calls := calls w |}
  = (Raise e, w1) ->
  BigAE.init config w = (Raise e, w1) /\
  cudnn_benchmark w1 = true /\
  (calls w1 = calls w \/
   exists kind p n, calls w1 = calls w ++ [CallResnet kind p n]).
Proof.
  intros Henc. split; [|split].
  - unfold BigAE.init.
    erewrite (bindM_Ok (BigAE.set_cudnn_benchmark true)) by reflexivity.
    cbv beta.
    destruct (retrieve_with_default_Ok config "Model/deterministic" (VBool false))
      as [det Hdet].
    rewrite (bindM_liftR_Ok _ _ _ _ Hdet).
    now apply bindM_Raise.
  - pose proof (keeps_benchmark_encoder_init config
                  {| cudnn_benchmark := true; rng_offset := rng_offset w;
                     calls := calls w |}) as Hflag.
    rewrite Henc in Hflag. exact Hflag.
  - destruct (encoder_init_calls config
                {| cudnn_benchmark := true; rng_offset := rng_offset w;
                   calls := calls w |}) as [[e' He'] | (kind & p & n & Hc)].
    + left. rewrite Henc in He'. now injection He' as _ ->.
    + right. exists kind, p, n. rewrite Henc in Hc. exact Hc.
Qed.

Context `{BigAE.Checkpoints}.

(** X12.  What a successful [from_pretrained] has done, in order: it
    asked torchvision for the backbone and the package for the
    generator, then resolved the checkpoint "bigae_" followed by the
    preset's name, then loaded the file at the resolved path; the model
    it returns is in evaluation mode. *)
Theorem BigAE_from_pretrained_steps (name : string) (w w' : world)
    (model : BigAE.t) :
  BigAE.from_pretrained name w = (Ok model, w') ->
  BigAE.training model = false /\
  exists kind p n a b c d m path,
    get_ckpt_path (String.append "bigae_" name) = Ok path /\
    calls w'
    = calls w ++ [CallResnet kind p n; CallGenerator a b c d m;
                  CallGetCkptPath (String.append "bigae_" name);
                  CallTorchLoad path].
Proof.
  unfold BigAE.from_pretrained. intros Hrun.
  destruct (BigAE.config_dict !! name) as [cfg|] eqn:Hcfg; [|discriminate].
  assert (Hname : name = "animals" \/ name = "animalfaces").
  { unfold BigAE.config_dict in Hcfg.
    destruct (decide (name = "animals")) as [->|Ha]; [now left|].
    rewrite lookup_insert_ne in Hcfg by congruence.
    destruct (decide (name = "animalfaces")) as [->|Hf]; [now right|].
    rewrite lookup_singleton_ne in Hcfg by congruence. discriminate. }
  apply bindM_Ok_inv in Hrun as (m0 & w1 & Hinit & Hrun).
  apply bindM_Ok_inv in Hrun as (ckpt & w2 & Hckpt & Hrun).
  apply liftR_Ok_inv in Hckpt as [Hckpt ->].
  assert (Hck : ckpt = String.append "bigae_" name).
  { destruct Hname as [-> | ->]; vm_compute in Hckpt; now injection Hckpt. }
  subst ckpt.
  apply bindM_Ok_inv in Hrun as ([] & w2 & Hlog1 & Hrun).
  unfold log in Hlog1. injection Hlog1 as <-.
  apply bindM_Ok_inv in Hrun as (path & w3 & Hpath & Hrun).
  apply liftR_Ok_inv in Hpath as [Hpath ->].
  apply bindM_Ok_inv in Hrun as ([] & w3 & Hlog2 & Hrun).
  unfold log in Hlog2. injection Hlog2 as <-.
  apply bindM_Ok_inv in Hrun as (state & w4 & Hstate & Hrun).
  apply liftR_Ok_inv in Hstate as [_ ->].
  apply bindM_Ok_inv in Hrun as (m1 & w5 & Hload & Hrun).
  apply liftR_Ok_inv in Hload as [_ ->].
  injection Hrun as <- <-.
  split; [reflexivity|].
  destruct (BigAE_init_Ok_inv _ _ _ _ Hinit) as (w2 & Henc & Hdec & _ & _).
  destruct (encoder_init_calls cfg
              {| cudnn_benchmark := true; rng_offset := rng_offset w;
                 calls := calls w |}) as [[e He] | (kind & p & n & Hc)].
  { rewrite Henc in He. discriminate. }
  destruct (wrapper_init_calls cfg w2) as [[e He] | (a & b & c & d & m & Hg)].
  { rewrite Hdec in He. discriminate. }
  rewrite Henc in Hc. rewrite Hdec in Hg. cbn [snd calls] in Hc, Hg.
  exists kind, p, n, a, b, c, d, m, path. split; [exact Hpath|].
  cbn [calls]. rewrite Hg, Hc, <- !app_assoc. reflexivity.
Qed.

End CallsMore.

Lemma BigAE_decode_trailing_singletons_witness :
  BigAE.decode Reference.deterministic_model
    (Tensor [1; 2; 1; 1]%nat [1%R; 2%R])
  = BigGANDecoderWrapper.forward (BigAE.decoder Reference.deterministic_model)
      (Tensor [1; 2]%nat [1%R; 2%R]) (@None tensor).
Proof.
  apply (BigAE_decode_trailing_singletons Reference.deterministic_model
           1 2 2 [1%R; 2%R]); lia.
Defined.

Lemma Reference_tiny_model_1 :
  exists model w',
    @BigAE.init Reference.torch Reference.package
      (Examples.tiny_config (VInt 1)) Reference.world0 = (Ok model, w').
Proof. eexists. eexists. vm_compute. reflexivity. Qed.

Lemma BigAE_decode_unit_latent_raises_witness :
  exists model w',
    @BigAE.init Reference.torch Reference.package
      (Examples.tiny_config (VInt 1)) Reference.world0 = (Ok model, w') /\
    BigAE.decode model (Tensor [2; 1; 1; 1]%nat [0%R; 0%R]) = Raise RuntimeError.
Proof.
  destruct Reference_tiny_model_1 as (model & w' & Hinit).
  exists model, w'. split; [exact Hinit|].
  apply (@BigAE_decode_unit_latent_raises Reference.torch Reference.package
           (Examples.tiny_config (VInt 1)) Reference.world0 w' model 2 2
           [0%R; 0%R] Hinit); [vm_compute; reflexivity | lia].
Defined.

Lemma BigAE_init_flags_witness :
  exists model w',
    @BigAE.init Reference.torch Reference.package
      (Examples.tiny_config (VInt 1)) Reference.world0 = (Ok model, w') /\
    BigAE.training model = true /\
    BigAE.be_deterministic model = VBool false.
Proof.
  destruct Reference_tiny_model_1 as (model & w' & Hinit).
  exists model, w'. split; [exact Hinit|].
  destruct (@BigAE_init_flags Reference.torch Reference.package
              (Examples.tiny_config (VInt 1)) Reference.world0 w' model Hinit)
    as (Htrain & _ & Hdefault).
  split; [exact Htrain|]. apply Hdefault. vm_compute. reflexivity.
Defined.

Lemma BigAE_init_encoder_failure_witness :
  exists w1,
    @BigAE.init Reference.skewed_torch Reference.package
      (Reference.small_config (VStr "bn") (VInt 1)) Reference.world0
    = (Raise (AssertionError "Output spatial size is not quadratic"), w1) /\
    cudnn_benchmark w1 = true /\
    (calls w1 = calls Reference.world0 \/
     exists kind p n,
       calls w1 = calls Reference.world0 ++ [CallResnet kind p n]).
Proof.
  eexists.
  apply (@BigAE_init_encoder_failure Reference.skewed_torch Reference.package
           (Reference.small_config (VStr "bn") (VInt 1)) Reference.world0).
  vm_compute. reflexivity.
Defined.

Lemma Reference_from_pretrained_animals :
  exists model w',
    @BigAE.from_pretrained Reference.torch Reference.package
      Reference.checkpoints "animals" Reference.world0 = (Ok model, w').
Proof.
  destruct (Reference_BigAE_init_preset "an" ActNorm true Reference.world0
              eq_refl) as (m & Hm).
  unfold BigAE.from_pretrained.
  replace (BigAE.config_dict !! "animals") with (Some (BigAE.preset "an" true))
    by reflexivity.
  erewrite (bindM_Ok _ _ _ _ _ Hm). cbv beta.
  erewrite bindM_liftR_Ok by (vm_compute; reflexivity).
  erewrite (bindM_Ok (log _)) by reflexivity. cbv beta.
  erewrite bindM_liftR_Ok by reflexivity.
  erewrite (bindM_Ok (log _)) by reflexivity. cbv beta.
  erewrite bindM_liftR_Ok by reflexivity.
  erewrite bindM_liftR_Ok by reflexivity.
  eexists. eexists. reflexivity.
Qed.

Lemma BigAE_from_pretrained_steps_witness :
  exists model w',
    @BigAE.from_pretrained Reference.torch Reference.package
      Reference.checkpoints "animals" Reference.world0 = (Ok model, w') /\
    BigAE.training model = false /\
    exists kind p n a b c d m path,
      @get_ckpt_path Reference.package (String.append "bigae_" "animals")
      = Ok path /\
      calls w'
      = calls Reference.world0
        ++ [CallResnet kind p n; CallGenerator a b c d m;
            CallGetCkptPath (String.append "bigae_" "animals");
            CallTorchLoad path].
Proof.
  destruct Reference_from_pretrained_animals as (model & w' & Hrun).
  exists model, w'. split; [exact Hrun|].
  exact (@BigAE_from_pretrained_steps Reference.torch Reference.package
           Reference.checkpoints "animals" Reference.world0 w' model Hrun).
Defined.

(** ** ResnetEncoder: what construction reads, requests and builds *)

Section EncoderMore.

Context `{Torch}.

Lemma possible_resnets_lookup (tok : string) (kind : resnet_kind) :
  ResnetEncoder.__possible_resnets !! tok = Some kind <->
  (tok = "resnet18" /\ kind = resnet18) \/
  (tok = "resnet34" /\ kind = resnet34) \/
  (tok = "resnet50" /\ kind = resnet50) \/
  (tok = "resnet101" /\ kind = resnet101).
Proof.
  unfold ResnetEncoder.__possible_resnets. split.
  - intros Hl.
    destruct (decide (tok = "resnet18")) as [->|H18].
    { rewrite lookup_insert_eq in Hl. injection Hl as <-. auto. }
    rewrite lookup_insert_ne in Hl by congruence.
    destruct (decide (tok = "resnet34")) as [->|H34].
    { rewrite lookup_insert_eq in Hl. injection Hl as <-. auto. }
    rewrite lookup_insert_ne in Hl by congruence.
    destruct (decide (tok = "resnet50")) as [->|H50].
    { rewrite lookup_insert_eq in Hl. injection Hl as <-. auto 6. }
    rewrite lookup_insert_ne in Hl by congruence.
    destruct (decide (tok = "resnet101")) as [->|H101].
    { rewrite lookup_singleton_eq in Hl. injection Hl as <-. auto 6. }
    rewrite lookup_singleton_ne in Hl by congruence. discriminate.
  - intros [[-> ->] | [[-> ->] | [[-> ->] | [-> ->]]]]; reflexivity.
Qed.

(** X13.  The backbone selector is closed: [__possible_resnets] has the
    four keys "resnet18", "resnet34", "resnet50" and "resnet101" and no
    other, and constructing an encoder whose configured type is any
    other string raises [KeyError] for it, with torchvision not asked
    for anything. *)
Theorem possible_resnets_closed (config : value) (w : world) (tok : string)
    (z_dim ipt_size load_pretrained norm_key : value) (nl : norm_layer) :
  (forall t kind,
     ResnetEncoder.__possible_resnets !! t = Some kind <->
     (t = "resnet18" /\ kind = resnet18) \/
     (t = "resnet34" /\ kind = resnet34) \/
     (t = "resnet50" /\ kind = resnet50) \/
     (t = "resnet101" /\ kind = resnet101))
  /\
  (retrieve config "Model/z_dim" None = Ok z_dim ->
   retrieve config "Model/in_size" None = Ok ipt_size ->
   retrieve config "Model/pretrained" None = Ok load_pretrained ->
   retrieve config "Model/norm" None = Ok norm_key ->
   dict_getitem _norm_options norm_key = Ok nl ->
   retrieve config "Model/type" None = Ok (VStr tok) ->
   tok <> "resnet18" -> tok <> "resnet34" ->
   tok <> "resnet50" -> tok <> "resnet101" ->
   ResnetEncoder.init config w = (Raise (KeyError (VStr tok)), w)).
Proof.
  split; [exact possible_resnets_lookup|].
  intros Hz Hipt Hlp Hnk Hnl Hty H18 H34 H50 H101.
  assert (Hnone : ResnetEncoder.__possible_resnets !! tok = None).
  { destruct (ResnetEncoder.__possible_resnets !! tok) as [kind|] eqn:Hl;
      [|reflexivity].
    apply possible_resnets_lookup in Hl. intuition congruence. }
  unfold ResnetEncoder.init. apply bindM_Raise.
  unfold ResnetEncoder.init_probe.
  rewrite (bindM_liftR_Ok _ _ _ _ Hz).
  rewrite (bindM_liftR_Ok _ _ _ _ Hipt).
  rewrite (bindM_liftR_Ok _ _ _ _
             (retrieve_default_present _ _ _ (VStr "resnet50") Hty)).
  rewrite (bindM_liftR_Ok _ _ _ _ Hlp).
  rewrite (bindM_liftR_Ok _ _ _ _ Hnk).
  rewrite (bindM_liftR_Ok _ _ _ _ Hnl).
  apply bindM_liftR_Raise. unfold dict_getitem. now rewrite Hnone.
Qed.

Lemma init_requests (config : value) (w : world)
    (z_dim ipt_size ty load_pretrained norm_key : value) (nl : norm_layer)
    (kind : resnet_kind) :
  retrieve config "Model/z_dim" None = Ok z_dim ->
  retrieve config "Model/in_size" None = Ok ipt_size ->
  retrieve config "Model/type" (Some (VStr "resnet50")) = Ok ty ->
  retrieve config "Model/pretrained" None = Ok load_pretrained ->
  retrieve config "Model/norm" None = Ok norm_key ->
  dict_getitem _norm_options norm_key = Ok nl ->
  dict_getitem ResnetEncoder.__possible_resnets ty = Ok kind ->
  calls (snd (ResnetEncoder.init config w))
  = calls w ++ [CallResnet kind load_pretrained nl].
Proof.
  intros Hz Hipt Hty Hlp Hnk Hnl Hkind.
  assert (Hprobe : calls (snd (ResnetEncoder.init_probe config w))
                   = calls w ++ [CallResnet kind load_pretrained nl]).
  { unfold ResnetEncoder.init_probe.
    rewrite (bindM_liftR_Ok _ _ _ _ Hz).
    rewrite (bindM_liftR_Ok _ _ _ _ Hipt).
    rewrite (bindM_liftR_Ok _ _ _ _ Hty).
    rewrite (bindM_liftR_Ok _ _ _ _ Hlp).
    rewrite (bindM_liftR_Ok _ _ _ _ Hnk).
    rewrite (bindM_liftR_Ok _ _ _ _ Hnl).
    rewrite (bindM_liftR_Ok _ _ _ _ Hkind).
    erewrite (bindM_Ok (log _)) by reflexivity. cbv beta.
    match goal with
    | |- calls (snd (?c ?w1)) = _ =>
        assert (Hk : keeps_calls c); [|exact (Hk w1)]
    end.
    apply keeps_calls_bind; [apply keeps_calls_liftR | intros m].
    cbv zeta.
    apply keeps_calls_bind; [apply keeps_calls_get_spatial_size | intros sz].
    apply keeps_calls_mret. }
  unfold ResnetEncoder.init, mbind, M_bind.
  destruct (ResnetEncoder.init_probe config w) as [[[self size]|e] w1];
    cbn [snd fst] in *; [|exact Hprobe].
  rewrite keeps_calls_init_head. exact Hprobe.
Qed.

(** X14.  The one backbone an encoder asks torchvision for is the
    configured one, with the configured pretrained flag and the
    normalization layer selected by [Model/norm]; when the configuration
    names no type it is a ResNet-50. *)
Theorem ResnetEncoder_init_requested_backbone (config : value) (w : world)
    (z_dim ipt_size load_pretrained norm_key : value) (nl : norm_layer) :
  retrieve config "Model/z_dim" None = Ok z_dim ->
  retrieve config "Model/in_size" None = Ok ipt_size ->
  retrieve config "Model/pretrained" None = Ok load_pretrained ->
  retrieve config "Model/norm" None = Ok norm_key ->
  dict_getitem _norm_options norm_key = Ok nl ->
  (walk config (split_slash "Model/type") = None ->
   calls (snd (ResnetEncoder.init config w))
   = calls w ++ [CallResnet resnet50 load_pretrained nl])
  /\
  (forall tok kind,
     retrieve config "Model/type" None = Ok (VStr tok) ->
     ResnetEncoder.__possible_resnets !! tok = Some kind ->
     calls (snd (ResnetEncoder.init config w))
     = calls w ++ [CallResnet kind load_pretrained nl]).
Proof.
  intros Hz Hipt Hlp Hnk Hnl. split.
  - intros Habsent.
    apply (init_requests config w z_dim ipt_size (VStr "resnet50")
             load_pretrained norm_key nl resnet50); try assumption.
    + apply (retrieve_default_absent _ _ (KeyNotFoundError "Model/type")).
      now apply retrieve_absent.
    + reflexivity.
  - intros tok kind Hty Hkind.
    apply (init_requests config w z_dim ipt_size (VStr tok)
             load_pretrained norm_key nl kind); try assumption.
    + now apply retrieve_default_present.
    + unfold dict_getitem. now rewrite Hkind.
Qed.

(** X15.  The four keys an encoder cannot do without are read in the
    order [Model/z_dim], [Model/in_size], [Model/pretrained],
    [Model/norm]; the first one missing is reported by a
    [KeyNotFoundError] naming it, with nothing requested or drawn. *)
Theorem ResnetEncoder_init_missing_key (config : value) (w : world) :
  (walk config (split_slash "Model/z_dim") = None ->
   ResnetEncoder.init config w = (Raise (KeyNotFoundError "Model/z_dim"), w))
  /\
  (forall z_dim,
     retrieve config "Model/z_dim" None = Ok z_dim ->
     walk config (split_slash "Model/in_size") = None ->
     ResnetEncoder.init config w = (Raise (KeyNotFoundError "Model/in_size"), w))
  /\
  (forall z_dim ipt_size,
     retrieve config "Model/z_dim" None = Ok z_dim ->
     retrieve config "Model/in_size" None = Ok ipt_size ->
     walk config (split_slash "Model/pretrained") = None ->
     ResnetEncoder.init config w
     = (Raise (KeyNotFoundError "Model/pretrained"), w))
  /\
  (forall z_dim ipt_size load_pretrained,
     retrieve config "Model/z_dim" None = Ok z_dim ->
     retrieve config "Model/in_size" None = Ok ipt_size ->
     retrieve config "Model/pretrained" None = Ok load_pretrained ->
     walk config (split_slash "Model/norm") = None ->
     ResnetEncoder.init config w = (Raise (KeyNotFoundError "Model/norm"), w)).
Proof.
  destruct (retrieve_with_default_Ok config "Model/type" (VStr "resnet50"))
    as [ty Hty].
  unfold ResnetEncoder.init, ResnetEncoder.init_probe.
  split; [|split; [|split]].
  - intros Hmiss. apply bindM_Raise, bindM_liftR_Raise.
    now apply retrieve_absent.
  - intros z_dim Hz Hmiss. apply bindM_Raise.
    rewrite (bindM_liftR_Ok _ _ _ _ Hz).
    apply bindM_liftR_Raise. now apply retrieve_absent.
  - intros z_dim ipt_size Hz Hipt Hmiss. apply bindM_Raise.
    rewrite (bindM_liftR_Ok _ _ _ _ Hz).
    rewrite (bindM_liftR_Ok _ _ _ _ Hipt).
    rewrite (bindM_liftR_Ok _ _ _ _ Hty).
    apply bindM_liftR_Raise. now apply retrieve_absent.
  - intros z_dim ipt_size lp Hz Hipt Hlp Hmiss. apply bindM_Raise.
    rewrite (bindM_liftR_Ok _ _ _ _ Hz).
    rewrite (bindM_liftR_Ok _ _ _ _ Hipt).
    rewrite (bindM_liftR_Ok _ _ _ _ Hty).
    rewrite (bindM_liftR_Ok _ _ _ _ Hlp).
    apply bindM_liftR_Raise. now apply retrieve_absent.
Qed.


End EncoderMore.

Section EncoderBuilt.

Context `{Torch}.

Lemma init_probe_self (config : value) (w w' : world)
    (self : ResnetEncoder.t) (size : list nat) :
  ResnetEncoder.init_probe config w = (Ok (self, size), w') ->
  ResnetEncoder.config self = config /\
  retrieve config "Model/z_dim" None = Ok (ResnetEncoder.z_dim self) /\
  retrieve config "Model/type" (Some (VStr "resnet50"))
  = Ok (ResnetEncoder.type_ self).
Proof.
  unfold ResnetEncoder.init_probe. intros Hrun.
  apply bindM_Ok_inv in Hrun as (zd & w1 & Hzd & Hrun).
  apply liftR_Ok_inv in Hzd as [Hzd ->].
  apply bindM_Ok_inv in Hrun as (ipt & w1 & Hipt & Hrun).
  apply liftR_Ok_inv in Hipt as [Hipt ->].
  apply bindM_Ok_inv in Hrun as (ty & w1 & Hty & Hrun).
  apply liftR_Ok_inv in Hty as [Hty ->].
  apply bindM_Ok_inv in Hrun as (lp & w1 & Hlp & Hrun).
  apply liftR_Ok_inv in Hlp as [Hlp ->].
  apply bindM_Ok_inv in Hrun as (nk & w1 & Hnk & Hrun).
  apply liftR_Ok_inv in Hnk as [Hnk ->].
  apply bindM_Ok_inv in Hrun as (nl & w1 & Hnl & Hrun).
  apply liftR_Ok_inv in Hnl as [Hnl ->].
  apply bindM_Ok_inv in Hrun as (kind & w1 & Hkind & Hrun).
  apply liftR_Ok_inv in Hkind as [Hkind ->].
  apply bindM_Ok_inv in Hrun as ([] & w1 & Hlog & Hrun).
  apply bindM_Ok_inv in Hrun as (m & w2 & Hm & Hrun).
  cbv zeta in Hrun.
  apply bindM_Ok_inv in Hrun as (sz & w3 & Hsz & Hrun).
  injection Hrun as <- <- <-. auto.
Qed.

Lemma init_head_Ok_inv (self enc : ResnetEncoder.t) (size : list nat)
    (w w' : world) :
  ResnetEncoder.init_head self size w = (Ok enc, w') ->
  exists c h z head,
    size !! 1%nat = Some c /\ size !! 2%nat = Some h /\
    size !! 3%nat = Some h /\
    as_int (ResnetEncoder.z_dim self) = Ok z /\
    DenseEncoderLayer.init 0 (Z.of_nat h) (2 * z) (Some (Z.of_nat c)) 1
    = Ok head /\
    enc = {| ResnetEncoder.config := ResnetEncoder.config self;
             ResnetEncoder.type_ := ResnetEncoder.type_ self;
             ResnetEncoder.z_dim := ResnetEncoder.z_dim self;
             ResnetEncoder.model :=
               set_fc (ResnetEncoder.model self) (DenseHead head);
             ResnetEncoder.image_transform :=
               ResnetEncoder.image_transform self |}.
Proof.
  unfold ResnetEncoder.init_head, ResnetEncoder.size_at. intros Hrun.
  apply bindM_Ok_inv in Hrun as (h & w1 & Hh & Hrun).
  apply liftR_Ok_inv in Hh as [Hh ->].
  apply bindM_Ok_inv in Hrun as (h' & w1 & Hh' & Hrun).
  apply liftR_Ok_inv in Hh' as [Hh' ->].
  destruct (Nat.eqb_spec h h') as [<-|Hne]; cbn [negb] in Hrun;
    [|discriminate].
  cbv zeta in Hrun.
  apply bindM_Ok_inv in Hrun as (c & w1 & Hc & Hrun).
  apply liftR_Ok_inv in Hc as [Hc ->].
  apply bindM_Ok_inv in Hrun as (z & w1 & Hz & Hrun).
  apply liftR_Ok_inv in Hz as [Hz ->].
  apply bindM_Ok_inv in Hrun as (head & w1 & Hhead & Hrun).
  apply liftR_Ok_inv in Hhead as [Hhead ->].
  injection Hrun as <- _.
  exists c, h, z, head.
  destruct (size !! 1%nat); [|discriminate].
  destruct (size !! 2%nat); [|discriminate].
  destruct (size !! 3%nat); [|discriminate].
  injection Hh as ->. injection Hh' as ->. injection Hc as ->. auto 7.
Qed.

(** X17.  What a constructed encoder is.  Its backbone is the one
    torchvision returned with only [fc] replaced; the replacement is a
    dense head whose single convolution takes the channels of the
    features of the probe input, has a kernel as large as their (square)
    spatial extent, and produces twice the configured latent size; and
    the encoder keeps the configuration it was built from. *)
Theorem ResnetEncoder_init_built (config : value) (w w' : world)
    (enc : ResnetEncoder.t) :
  ResnetEncoder.init config w = (Ok enc, w') ->
  exists m kind p n head z s y c h,
    torchvision_resnet kind p n = Ok m /\
    ResnetEncoder.model enc = set_fc m (DenseHead head) /\
    ResnetEncoder.config enc = config /\
    retrieve config "Model/z_dim" None = Ok (ResnetEncoder.z_dim enc) /\
    as_int (ResnetEncoder.z_dim enc) = Ok z /\
    retrieve config "Model/in_size" None = Ok (VInt s) /\
    ResnetEncoder.features enc
      (Tensor [1; 3; Z.to_nat s; Z.to_nat s]%nat
         (map normal_stream
            (seq (rng_offset w) (numel [1; 3; Z.to_nat s; Z.to_nat s]%nat))))
    = Ok y /\
    shape y !! 1%nat = Some c /\
    shape y !! 2%nat = Some h /\ shape y !! 3%nat = Some h /\
    DenseEncoderLayer.sub_layers head
    = [{| conv_in_channels := Z.of_nat c;
          conv_out_channels := 2 * z;
          conv_kernel_size := Z.of_nat h;
          conv_stride := 1;
          conv_padding := 0;
          conv_bias := true |}].
Proof.
  unfold ResnetEncoder.init. intros Hrun.
  apply bindM_Ok_inv in Hrun as ([self size] & w1 & Hprobe & Hhead).
  cbn [fst snd] in Hhead.
  destruct (init_probe_self _ _ _ _ _ Hprobe) as (Hcfg & Hzd & _).
  destruct (init_probe_Ok_inv _ _ _ _ _ Hprobe)
    as (s & y & kind & p & n & Hs & _ & Hm & _ & Hy & Hsize & _ & _).
  destruct (init_head_Ok_inv _ _ _ _ _ Hhead)
    as (c & h & z & head & Hc & Hh & Hh' & Hz & Hinit & ->).
  subst size.
  exists (ResnetEncoder.model self), kind, p, n, head, z, s, y, c, h.
  cbn [ResnetEncoder.model ResnetEncoder.config ResnetEncoder.z_dim].
  split; [exact Hm|]. split; [reflexivity|]. split; [exact Hcfg|].
  split; [exact Hzd|]. split; [exact Hz|]. split; [exact Hs|].
  split; [exact Hy|]. split; [exact Hc|]. split; [exact Hh|].
  split; [exact Hh'|].
  unfold DenseEncoderLayer.init, DenseEncoderLayer.build, Conv2d_init in Hinit.
  cbn [DenseEncoderLayer.in_channels DenseEncoderLayer.out_channels
         DenseEncoderLayer.kernel_size] in Hinit.
  destruct (_ || _); [discriminate|].
  cbn [mbind result_bind mret result_ret] in Hinit.
  injection Hinit as <-. reflexivity.
Qed.


End EncoderBuilt.

Lemma possible_resnets_closed_witness :
  @ResnetEncoder.init Reference.torch (Examples.typed_config "vgg16")
    Reference.world0
  = (Raise (KeyError (VStr "vgg16")), Reference.world0).
Proof.
  apply (proj2 (@possible_resnets_closed Reference.torch
                  (Examples.typed_config "vgg16") Reference.world0 "vgg16"
                  (VInt 2) (VInt 1) (VBool false) (VStr "bn") BatchNorm2d));
    solve [vm_compute; reflexivity | discriminate].
Defined.

Lemma ResnetEncoder_init_requested_backbone_witness :
  calls (snd (@ResnetEncoder.init Reference.torch
                (Examples.tiny_config (VInt 2)) Reference.world0))
  = calls Reference.world0 ++ [CallResnet resnet50 (VBool false) BatchNorm2d]
  /\
  calls (snd (@ResnetEncoder.init Reference.torch
                (Examples.typed_config "resnet18") Reference.world0))
  = calls Reference.world0 ++ [CallResnet resnet18 (VBool false) BatchNorm2d].
Proof.
  split.
  - apply (proj1 (@ResnetEncoder_init_requested_backbone Reference.torch
                    (Examples.tiny_config (VInt 2)) Reference.world0
                    (VInt 2) (VInt 1) (VBool false) (VStr "bn") BatchNorm2d
                    ltac:(vm_compute; reflexivity) ltac:(vm_compute; reflexivity)
                    ltac:(vm_compute; reflexivity) ltac:(vm_compute; reflexivity)
                    ltac:(vm_compute; reflexivity))).
    vm_compute. reflexivity.
  - apply (proj2 (@ResnetEncoder_init_requested_backbone Reference.torch
                    (Examples.typed_config "resnet18") Reference.world0
                    (VInt 2) (VInt 1) (VBool false) (VStr "bn") BatchNorm2d
                    ltac:(vm_compute; reflexivity) ltac:(vm_compute; reflexivity)
                    ltac:(vm_compute; reflexivity) ltac:(vm_compute; reflexivity)
                    ltac:(vm_compute; reflexivity)) "resnet18" resnet18);
      vm_compute; reflexivity.
Defined.

Lemma ResnetEncoder_init_missing_key_witness :
  @ResnetEncoder.init Reference.torch (VDict ∅) Reference.world0
  = (Raise (KeyNotFoundError "Model/z_dim"), Reference.world0)
  /\
  @ResnetEncoder.init Reference.torch (Examples.latent_only 2) Reference.world0
  = (Raise (KeyNotFoundError "Model/in_size"), Reference.world0)
  /\
  @ResnetEncoder.init Reference.torch
    (Examples.model_section {[ "z_dim" := VInt 2; "in_size" := VInt 1 ]})
    Reference.world0
  = (Raise (KeyNotFoundError "Model/pretrained"), Reference.world0)
  /\
  @ResnetEncoder.init Reference.torch
    (Examples.model_section
       {[ "z_dim" := VInt 2; "in_size" := VInt 1; "pretrained" := VBool true ]})
    Reference.world0
  = (Raise (KeyNotFoundError "Model/norm"), Reference.world0).
Proof.
  split; [|split; [|split]].
  - apply (@ResnetEncoder_init_missing_key Reference.torch (VDict ∅)).
    vm_compute. reflexivity.
  - apply (proj1 (proj2 (@ResnetEncoder_init_missing_key Reference.torch
                           (Examples.latent_only 2) Reference.world0))
             (VInt 2)); vm_compute; reflexivity.
  - apply (proj1 (proj2 (proj2 (@ResnetEncoder_init_missing_key Reference.torch
                                  _ Reference.world0)))
             (VInt 2) (VInt 1)); vm_compute; reflexivity.
  - apply (proj2 (proj2 (proj2 (@ResnetEncoder_init_missing_key Reference.torch
                                  _ Reference.world0)))
             (VInt 2) (VInt 1) (VBool true)); vm_compute; reflexivity.
Defined.


Lemma Reference_tiny_encoder :
  exists enc w',
    @ResnetEncoder.init Reference.torch (Examples.tiny_config (VInt 2))
      Reference.world0 = (Ok enc, w').
Proof. eexists. eexists. vm_compute. reflexivity. Qed.

Lemma ResnetEncoder_init_built_witness :
  exists enc w' head z,
    @ResnetEncoder.init Reference.torch (Examples.tiny_config (VInt 2))
      Reference.world0 = (Ok enc, w') /\
    fc (ResnetEncoder.model enc) = DenseHead head /\
    as_int (ResnetEncoder.z_dim enc) = Ok z /\
    exists c h,
      DenseEncoderLayer.sub_layers head
      = [{| conv_in_channels := Z.of_nat c;
            conv_out_channels := 2 * z;
            conv_kernel_size := Z.of_nat h;
            conv_stride := 1;
            conv_padding := 0;
            conv_bias := true |}].
Proof.
  destruct Reference_tiny_encoder as (enc & w' & Hinit).
  destruct (@ResnetEncoder_init_built Reference.torch _ _ _ _ Hinit)
    as (m & kind & p & n & head & z & s & y & c & h & _ & Hmodel & _ & _ & Hz
        & _ & _ & _ & _ & _ & Hconv).
  exists enc, w', head, z. split; [exact Hinit|].
  split; [now rewrite Hmodel|]. split; [exact Hz|].
  exists c, h. exact Hconv.
Defined.


(** ** The image transform, entry by entry *)

Section TransformMore.

Local Open Scope R_scope.

Lemma nth_concat_chunks (chunks : list (list R)) (m k : nat) :
  Forall (fun c => length c = m) chunks ->
  (k < length chunks * m)%nat ->
  nth k (concat chunks) 0
  = nth (k mod m) (nth (k / m) chunks []) 0.
Proof.
  intros Hall. revert k.
  induction Hall as [|c chunks Hc Hall IH]; intros k Hk; [simpl in Hk; lia|].
  assert (Hm : (0 < m)%nat) by (destruct m; simpl in Hk; lia).
  cbn [concat]. destruct (Nat.lt_ge_cases k m) as [Hlt|Hge].
  - rewrite app_nth1 by lia.
    rewrite Nat.div_small, Nat.mod_small by lia. reflexivity.
  - rewrite app_nth2 by lia. rewrite Hc.
    rewrite IH by (simpl in Hk; lia).
    assert (Hdiv : (k / m = S ((k - m) / m))%nat).
    { replace k with ((k - m) + 1 * m)%nat at 1 by lia.
      rewrite Nat.div_add by lia. lia. }
    assert (Hmod : (k mod m = (k - m) mod m)%nat).
    { replace k with ((k - m) + 1 * m)%nat at 1 by lia.
      now rewrite Nat.Div0.mod_add. }
    rewrite Hdiv, Hmod. reflexivity.
Qed.

Lemma nth_imap_R (f : nat -> R -> R) (l : list R) (j : nat) :
  (j < length l)%nat -> nth j (imap f l) 0 = f j (nth j l 0).
Proof.
  revert f j. induction l as [|a l IH]; intros f j Hj; [simpl in Hj; lia|].
  destruct j as [|j]; [reflexivity|].
  cbn [imap nth]. rewrite IH by (simpl in Hj; lia). reflexivity.
Qed.

Lemma nth_take_drop (l : list R) (off m j : nat) :
  (j < m)%nat -> nth j (take m (drop off l)) 0 = nth (off + j) l 0.
Proof.
  intros Hj. rewrite !nth_lookup.
  rewrite lookup_take_lt by lia. now rewrite lookup_drop.
Qed.

(** The channel of entry [k] of a batch of [c]-channel [h x w] images. *)
Lemma channel_of_chunk (k c hw : nat) :
  (((k mod (c * hw)) / hw) mod c = (k / hw) mod c)%nat.
Proof.
  destruct hw as [|hw]; [now rewrite Nat.mul_0_r|].
  destruct c as [|c]; [reflexivity|].
  rewrite (Nat.mul_comm (S c) (S hw)).
  rewrite Nat.Div0.mod_mul_r.
  rewrite (Nat.mul_comm (S hw) _), Nat.div_add by lia.
  rewrite (Nat.div_small (k mod S hw)) by (apply Nat.mod_upper_bound; lia).
  cbn [Nat.add]. now rewrite Nat.Div0.mod_mod.
Qed.

Lemma stack_normalized_entries (self : ResnetEncoder.t) (n h w : nat)
    (x : tensor) :
  shape x = [S n; 3; h; w]%nat ->
  length (data x) = numel (shape x) ->
  exists y,
    ResnetEncoder.stack_normalized
      (Normalize (ResnetEncoder.mean self) (ResnetEncoder.std self)) x = Ok y /\
    shape y = shape x /\
    forall k, (k < numel (shape x))%nat ->
      at_ y k
      = (rescale (at_ x k)
         - Q2R (nth ((k / (h * w)) mod 3) (ResnetEncoder.mean self) 0%Q))
        / Q2R (nth ((k / (h * w)) mod 3) (ResnetEncoder.std self) 0%Q).
Proof.
  intros Hx Hlen.
  set (m := (3 * (h * w))%nat).
  assert (Hnumel : numel [S n; 3; h; w]%nat = (S n * m)%nat).
  { cbn [numel fold_right]. unfold m. lia. }
  rewrite Hx in Hlen.
  set (slice := fun i => Tensor [3; h; w]%nat
                           (take (numel [3; h; w]%nat)
                                 (drop (i * numel [3; h; w]%nat) (data x)))).
  set (norm := fun t => Normalize (ResnetEncoder.mean self)
                          (ResnetEncoder.std self) (map_entries rescale t)).
  set (out := fun i =>
         Tensor [3; h; w]%nat
           (imap (fun j v =>
                    (v - Q2R (nth ((j / (h * w)) mod 3) (ResnetEncoder.mean self) 0%Q))
                    / Q2R (nth ((j / (h * w)) mod 3) (ResnetEncoder.std self) 0%Q))
                 (map rescale (data (slice i))))).
  assert (Hnorm : forall i, norm (slice i) = Ok (out i)).
  { intros i. reflexivity. }
  assert (Hmap : forall l, map_result norm (map slice l) = Ok (map out l)).
  { induction l as [|i l IH]; [reflexivity|].
    cbn [map map_result]. rewrite Hnorm. cbn [mbind result_bind].
    rewrite IH. reflexivity. }
  unfold ResnetEncoder.stack_normalized, unbind0. rewrite Hx.
  cbn [mbind result_bind]. fold slice. fold norm.
  rewrite Hmap. cbn [mbind result_bind].
  destruct (stack_Ok (map out (seq 0 (S n))) [3; h; w]%nat) as (y & Hy & Hshape).
  { discriminate. }
  { apply Forall_forall. intros t Ht. apply list_elem_of_In in Ht.
    apply in_map_iff in Ht as (i & <- & _). reflexivity. }
  exists y. split; [exact Hy|]. rewrite length_map, length_seq in Hshape.
  split; [now rewrite Hshape|].
  intros k Hk. rewrite Hnumel in Hk.
  assert (Hdata : data y = concat (map data (map out (seq 0 (S n))))).
  { unfold stack in Hy. cbn [seq map] in Hy.
    destruct (forallb _ _); [|discriminate]. now injection Hy as <-. }
  assert (Hm : (0 < m)%nat) by (destruct m; lia).
  assert (Hi : (k / m < S n)%nat) by (apply Nat.Div0.div_lt_upper_bound; lia).
  assert (Hj : (k mod m < m)%nat) by (apply Nat.mod_upper_bound; lia).
  assert (Hslice_len : forall i, (i < S n)%nat -> length (data (slice i)) = m).
  { intros i Hi'. unfold slice. cbn [data numel fold_right].
    rewrite length_take, length_drop, Hlen, Hnumel. unfold m. nia. }
  unfold at_ at 1. rewrite Hdata.
  rewrite (nth_concat_chunks _ m).
  2:{ apply Forall_forall. intros c Hc. apply list_elem_of_In in Hc.
      apply in_map_iff in Hc as (t & <- & Ht).
      apply in_map_iff in Ht as (i & <- & Hi').
      apply in_seq in Hi'. unfold out. cbn [data].
      rewrite length_imap, length_map. apply Hslice_len. lia. }
  2:{ rewrite !length_map, length_seq. exact Hk. }
  rewrite map_map.
  rewrite (nth_indep _ [] (data (out 0%nat)))
    by (rewrite length_map, length_seq; exact Hi).
  rewrite (map_nth (fun i => data (out i))), seq_nth by exact Hi.
  cbn [Nat.add]. unfold out at 1. cbn [data].
  rewrite nth_imap_R by (rewrite length_map, Hslice_len by exact Hi; exact Hj).
  rewrite (nth_indep _ 0 (rescale 0))
    by (rewrite length_map, Hslice_len by exact Hi; exact Hj).
  rewrite map_nth. unfold slice at 1. cbn [data].
  assert (Hm' : numel [3; h; w]%nat = m).
  { cbn [numel fold_right]. unfold m. lia. }
  rewrite Hm', nth_take_drop by exact Hj.
  pose proof (Nat.div_mod_eq k m) as Hdm.
  replace (k / m * m + k mod m)%nat with k by lia.
  unfold m at 1 2. rewrite channel_of_chunk. reflexivity.
Qed.


Context `{Torch}.

Lemma init_transform (config : value) (w w' : world) (enc : ResnetEncoder.t) :
  ResnetEncoder.init config w = (Ok enc, w') ->
  ResnetEncoder.image_transform enc
  = ResnetEncoder.stack_normalized
      (Normalize (ResnetEncoder.mean enc) (ResnetEncoder.std enc)).
Proof.
  unfold ResnetEncoder.init. intros Hrun.
  apply bindM_Ok_inv in Hrun as ([self size] & w1 & Hprobe & Hhead).
  cbn [fst snd] in Hhead.
  destruct (init_probe_Ok_inv _ _ _ _ _ Hprobe)
    as (s & y & kind & p & n & _ & _ & _ & Ht & _).
  destruct (init_head_Ok_inv _ _ _ _ _ Hhead)
    as (c & h & z & head & _ & _ & _ & _ & _ & ->).
  cbn [ResnetEncoder.image_transform]. exact Ht.
Qed.

(** X19.  What the preprocessing of a constructed encoder computes.  On
    a non-empty batch of three-channel images it returns a batch of the
    same shape in which entry [k], lying in channel
    [c = (k / (h * w)) mod 3], is [(0.5 * (x_k + 1) - mean_c) / std_c]:
    the rescaling from [-1, 1] to [0, 1] followed by the per-channel
    normalisation with the encoder's [mean] and [std]. *)
Theorem ResnetEncoder_pre_process_entries (config : value) (w0 w' : world)
    (enc : ResnetEncoder.t) (n h w : nat) (x : tensor) :
  ResnetEncoder.init config w0 = (Ok enc, w') ->
  shape x = [S n; 3; h; w]%nat ->
  length (data x) = numel (shape x) ->
  exists y,
    ResnetEncoder._pre_process enc x = Ok y /\
    shape y = shape x /\
    forall k, (k < numel (shape x))%nat ->
      at_ y k
      = (rescale (at_ x k)
         - Q2R (nth ((k / (h * w)) mod 3) (ResnetEncoder.mean enc) 0%Q))
        / Q2R (nth ((k / (h * w)) mod 3) (ResnetEncoder.std enc) 0%Q).
Proof.
  intros Hinit Hx Hlen. unfold ResnetEncoder._pre_process.
  rewrite (init_transform _ _ _ _ Hinit).
  exact (stack_normalized_entries enc n h w x Hx Hlen).
Qed.




(** X21.  The head of a constructed encoder is one convolution: on every
    input, [post_features] is torch's convolution with stride 1, no
    padding and a bias, from the channels of the probe's features to
    twice the configured latent size (read as an integer), with a kernel as large as the
    probe's feature map. *)
Theorem ResnetEncoder_post_features_single_convolution (config : value)
    (w0 w' : world) (enc : ResnetEncoder.t) :
  ResnetEncoder.init config w0 = (Ok enc, w') ->
  exists conv zd z,
    (forall x, ResnetEncoder.post_features enc x = Conv2d_forward conv x) /\
    retrieve config "Model/z_dim" None = Ok zd /\ as_int zd = Ok z /\
    conv_out_channels conv = (2 * z)%Z /\
    conv_stride conv = 1%Z /\ conv_padding conv = 0%Z /\
    conv_bias conv = true /\
    (0 <= conv_in_channels conv)%Z /\ (0 <= conv_kernel_size conv)%Z.
Proof.
  unfold ResnetEncoder.init. intros Hrun.
  apply bindM_Ok_inv in Hrun as ([self size] & w1 & Hprobe & Hhead).
  cbn [fst snd] in Hhead.
  destruct (init_probe_self _ _ _ _ _ Hprobe) as (_ & Hzd & _).
  destruct (init_head_Ok_inv _ _ _ _ _ Hhead)
    as (c & h & z & head & _ & _ & _ & Hz & Hinit & ->).
  unfold DenseEncoderLayer.init, DenseEncoderLayer.build, Conv2d_init in Hinit.
  cbn [DenseEncoderLayer.in_channels DenseEncoderLayer.out_channels
         DenseEncoderLayer.kernel_size] in Hinit.
  destruct (_ || _); [discriminate|].
  cbn [mbind result_bind mret result_ret] in Hinit.
  injection Hinit as <-.
  eexists _, (ResnetEncoder.z_dim self), z.
  split; [intros x; reflexivity|].
  split; [exact Hzd|]. split; [exact Hz|].
  cbn [conv_out_channels conv_stride conv_padding conv_bias
         conv_in_channels conv_kernel_size].
  split; [reflexivity|]. split; [reflexivity|]. split; [reflexivity|].
  split; [reflexivity|]. split; lia.
Qed.

End TransformMore.

Lemma ResnetEncoder_pre_process_entries_witness :
  exists enc w' y,
    @ResnetEncoder.init Reference.torch (Examples.tiny_config (VInt 2))
      Reference.world0 = (Ok enc, w') /\
    ResnetEncoder._pre_process enc (Tensor [1; 3; 1; 1]%nat [1; 0; -1]%R)
    = Ok y /\
    shape y = [1; 3; 1; 1]%nat /\
    at_ y 1 = ((rescale 0 - Q2R 0.456) / Q2R 0.224)%R.
Proof.
  destruct Reference_tiny_encoder as (enc & w' & Hinit).
  destruct (@ResnetEncoder_pre_process_entries Reference.torch _ _ _ enc
              0%nat 1%nat 1%nat (Tensor [1; 3; 1; 1]%nat [1; 0; -1]%R)
              Hinit eq_refl eq_refl) as (y & Hy & Hshape & Hentries).
  exists enc, w', y. split; [exact Hinit|]. split; [exact Hy|].
  split; [exact Hshape|].
  apply (Hentries 1%nat). cbn. lia.
Defined.


Lemma ResnetEncoder_post_features_single_convolution_witness :
  exists enc w' conv,
    @ResnetEncoder.init Reference.torch (Examples.tiny_config (VInt 2))
      Reference.world0 = (Ok enc, w') /\
    (forall x, @ResnetEncoder.post_features Reference.torch enc x
               = @Conv2d_forward Reference.torch conv x) /\
    conv_out_channels conv = 4%Z.
Proof.
  destruct Reference_tiny_encoder as (enc & w' & Hinit).
  destruct (@ResnetEncoder_post_features_single_convolution Reference.torch
              _ _ _ enc Hinit)
    as (conv & zd & z & Hpost & Hzd & Hz & Hout & _).
  assert (Hr : retrieve (Examples.tiny_config (VInt 2)) "Model/z_dim" None
               = Ok (VInt 2)) by (vm_compute; reflexivity).
  rewrite Hr in Hzd. injection Hzd as <-. injection Hz as <-.
  exists enc, w', conv. split; [exact Hinit|]. split; [exact Hpost|].
  exact Hout.
Defined.

(** ** The default width of the dense head *)

Section WidthMore.

Local Open Scope Q_scope.







End WidthMore.
